(** * cryptowallet: transaction construction and fee settlement

    A shallow embedding of the two send engines of the wallet service,
    [BtcServiceV1] (src/btc/v1/btc.service.ts) and [Web3Service]
    (web3.service.ts), and the properties their specification states.

    Conventions of the embedding.
    - An [async] method is a computation in the monad [Task]: it threads
      the list of requests sent to external collaborators so far (oldest
      first) and ends with a value or with a thrown exception.  The
      requests survive a failure, so that one can state that a method
      failed without having sent a given request.
    - The collaborators (explorer, fee estimator, RPC node, the bitcoinjs
      and web3 libraries) are a record of answers, one per request.
    - JavaScript numbers that hold integers (satoshi, bytes, gas, indices)
      are in [Z]; every other number (human amounts, fee quotes) is a
      binary64 [float], and is added, multiplied, compared and printed
      as the language does. *)

From Stdlib Require Import ZArith String Ascii List Bool Lia.
From Stdlib Require Import DecimalString.
From Stdlib Require Import PrimFloat SpecFloat FloatOps FloatAxioms.
Import ListNotations.

Local Open Scope Z_scope.
Local Open Scope string_scope.

(** ** Exceptions and tasks *)

Module Js.

Inductive HttpStatus : Type :=
| BAD_REQUEST
| INTERNAL_SERVER_ERROR.

(** What a method can throw.
    - [HttpException m s] is [new HttpException(m, s)] with a text [m];
    - [JsError m] is an error of the runtime or of a library (a
      [TypeError], a failed request) whose [message] is [m];
    - [Rethrown e] is what every outer [catch (e)] of the services
      builds: [new HttpException({message: e.message},
      INTERNAL_SERVER_ERROR, {cause: e})]. *)
Inductive Exception : Type :=
| HttpException (text : string) (code : HttpStatus)
| JsError (text : string)
| Rethrown (cause : Exception).

(** [e.message] *)
Fixpoint message (e : Exception) : string :=
  match e with
  | HttpException m _ => m
  | JsError m => m
  | Rethrown c => message c
  end.

(** The exception at the bottom of the [cause] chain. *)
Fixpoint rootCause (e : Exception) : Exception :=
  match e with
  | Rethrown c => rootCause c
  | _ => e
  end.

Section Task.
Variable Ev : Type.

Definition Task (A : Type) : Type :=
  list Ev -> (Exception + A) * list Ev.

Definition ret {A} (a : A) : Task A := fun t => (inr a, t).

Definition bind {A B} (c : Task A) (k : A -> Task B) : Task B :=
  fun t =>
    match c t with
    | (inr a, t') => k a t'
    | (inl e, t') => (inl e, t')
    end.

Definition throw {A} (e : Exception) : Task A := fun t => (inl e, t).

(** A synchronous call that returns or throws, no request sent. *)
Definition lift {A} (r : Exception + A) : Task A := fun t => (r, t).

(** [await] of a request [ev] whose answer is [r]. *)
Definition request {A} (ev : Ev) (r : Exception + A) : Task A :=
  fun t => (r, (t ++ [ev])%list).

(** [try { c } catch (e) { h e }] *)
Definition tryCatch {A} (c : Task A) (h : Exception -> Task A) : Task A :=
  fun t =>
    match c t with
    | (inl e, t') => h e t'
    | r => r
    end.

(** The outer handler of every service method. *)
Definition rethrow {A} (e : Exception) : Task A := throw (Rethrown e).

Definition outcome {A} (c : Task A) : Exception + A := fst (c []).
Definition requests {A} (c : Task A) : list Ev := snd (c []).
End Task.

Arguments ret {Ev A} a _.
Arguments bind {Ev A B} c k _.
Arguments throw {Ev A} e _.
Arguments lift {Ev A} r _.
Arguments request {Ev A} ev r _.
Arguments tryCatch {Ev A} c h _.
Arguments rethrow {Ev A} e _.
Arguments outcome {Ev A} c.
Arguments requests {Ev A} c.

(** [String(i)] of an integer. *)
Definition String_of_Z (i : Z) : string :=
  NilZero.string_of_int (Z.to_int i).

End Js.

Import Js.

Declare Scope task_scope.
Delimit Scope task_scope with task.
Notation "x <- c ;; k" := (bind c (fun x => k))
(at level 61, c at next level, right associativity) : task_scope.
Notation "' pat <- c ;; k" := (bind c (fun x => match x with pat => k end))
(at level 61, pat pattern, c at next level, right associativity) : task_scope.
Local Open Scope task_scope.

(** ** Numbers

    The conversions between numbers and text that the services rely
    on. *)

Module Num.

Local Open Scope Z_scope.

(** The number nearest to an integer: what reading its decimal text
    as a number gives. *)
Definition Number_of_Z (z : Z) : float :=
  SF2Prim (binary_normalize prec emax z 0 false).

(** [a * 10^p] against [b * 2^q], for integers [p] and [q] of either
    sign. *)
Definition compare_scaled (a p b q : Z) : comparison :=
  Z.compare (a * 10 ^ Z.max p 0 * 2 ^ Z.max (- q) 0)
            (b * 2 ^ Z.max q 0 * 10 ^ Z.max (- p) 0).

(** The decimals that read back as the number [m * 2^e] lie between the
    midpoints to its two neighbours, the midpoints included when [m] is
    even.  In units of [2^(e-2)] the number is [4m], the upper
    midpoint [4m + 2], the lower one [4m - 2], or [4m - 1] where the
    neighbour below is half as far (a mantissa of [2^52] above the
    smallest exponent). *)
Definition lower_midpoint (m e : Z) : Z :=
  if (m =? 2 ^ 52) && (-1074 <? e) then 4 * m - 1 else 4 * m - 2.

Definition reads_back (m e s p : Z) : bool :=
  let inclusive := Z.even m in
  let above :=
    match compare_scaled s p (lower_midpoint m e) (e - 2) with
    | Gt => true | Eq => inclusive | Lt => false
    end in
  let below :=
    match compare_scaled s p (4 * m + 2) (e - 2) with
    | Lt => true | Eq => inclusive | Gt => false
    end in
  above && below.

(** The [n] with [10^(n-1) <= m * 2^e < 10^n]. *)
Definition magnitude (m e : Z) : Z :=
  let guess := (Z.log2 m + e) * 30103 / 100000 in
  let exceeds n := match compare_scaled 1 n m e with Gt => true | _ => false end in
  if exceeds (guess - 1) then guess - 1
  else if exceeds guess then guess
  else if exceeds (guess + 1) then guess + 1
  else guess + 2.

(** The [k]-digit decimals next to [m * 2^e]: the one below, [s] times
    [10^(n-k)], and the one above. *)
Definition digits_below (m e n k : Z) : Z :=
  let q := n - k in
  (m * 2 ^ Z.max e 0 * 10 ^ Z.max (- q) 0) / (2 ^ Z.max (- e) 0 * 10 ^ Z.max q 0).

(** Of the decimals with [k] digits that read back as the number, the
    one nearest to it (the even one of two equally near), if any. *)
Definition shortest_at (m e n k : Z) : option Z :=
  let q := n - k in
  let s1 := digits_below m e n k in
  let s2 := s1 + 1 in
  match reads_back m e s1 q, reads_back m e s2 q with
  | true, true =>
      match compare_scaled (s1 + s2) q (2 * m) e with
      | Gt => Some s1
      | Lt => Some s2
      | Eq => Some (if Z.even s1 then s1 else s2)
      end
  | true, false => Some s1
  | false, true => Some s2
  | false, false => None
  end.

(** The fewest digits that read back as the number: [(s, k, n)] with
    [s] of [k] digits and [s * 10^(n-k)] the decimal; 17 digits always
    do. *)
Fixpoint shortest_from (fuel : nat) (m e n k : Z) : Z * Z * Z :=
  match fuel with
  | O => (digits_below m e n k, k, n)
  | S fuel' =>
      match shortest_at m e n k with
      | Some s => if (s =? 10 ^ k) then (s / 10, k, n + 1) else (s, k, n)
      | None => shortest_from fuel' m e n (k + 1)
      end
  end.

Definition shortest (m e : Z) : Z * Z * Z :=
  shortest_from 17 m e (magnitude m e) 1.

Fixpoint zeros (n : nat) : string :=
  match n with O => "" | S n' => "0" ++ zeros n' end.

(** [Number::toString] of a positive finite number with the digits [s]
    ([k] of them) and the decimal point after the [n]-th. *)
Definition positive_text (s k n : Z) : string :=
  let digits := String_of_Z s in
  if (k <=? n) && (n <=? 21) then digits ++ zeros (Z.to_nat (n - k))
  else if (0 <? n) && (n <=? 21) then
    substring 0 (Z.to_nat n) digits ++ "."
      ++ substring (Z.to_nat n) (Z.to_nat (k - n)) digits
  else if (-6 <? n) && (n <=? 0) then "0." ++ zeros (Z.to_nat (- n)) ++ digits
  else
    let exponent := (if (0 <=? n - 1) then "+" else "-") ++ String_of_Z (Z.abs (n - 1)) in
    if (k =? 1) then digits ++ "e" ++ exponent
    else substring 0 1 digits ++ "." ++ substring 1 (Z.to_nat (k - 1)) digits
           ++ "e" ++ exponent.

(** [String(x)] and [x.toString()] of a number. *)
Definition Number_text (x : float) : string :=
  match Prim2SF x with
  | S754_nan => "NaN"
  | S754_zero _ => "0"
  | S754_infinity s => (if s then "-" else "") ++ "Infinity"
  | S754_finite s m e =>
      let '(d, k, n) := shortest (Zpos m) e in
      (if s then "-" else "") ++ positive_text d k n
  end.

Definition sign_text (s : bool) : string := if s then "-" else "".

(** U+221E, in UTF-8. *)
Definition infinity_text : string :=
  String "226" (String "136" (String "158" EmptyString)).

(** At most three fraction digits, none of them a trailing zero. *)
Definition fraction_text (r : Z) : string :=
  let d1 := String_of_Z (r / 100) in
  let d2 := String_of_Z (r / 10 mod 10) in
  let d3 := String_of_Z (r mod 10) in
  if (r =? 0) then ""
  else if negb (r mod 10 =? 0) then "." ++ d1 ++ d2 ++ d3
  else if negb (r / 10 mod 10 =? 0) then "." ++ d1 ++ d2
  else "." ++ d1.

(** [x.toLocaleString('fullwide', {useGrouping: false})].  The tag
    selects no locale data of its own, so the number is formatted
    with the defaults and without group separators: Latin digits, a
    point, never an exponent.  The digits are the shortest ones that
    read back as the number, zeros after them for a large number; they
    are rounded to three fraction digits, a half away from zero, and
    trailing fraction zeros are dropped. *)
Definition toLocaleString (x : float) : string :=
  match Prim2SF x with
  | S754_nan => "NaN"
  | S754_infinity s => sign_text s ++ infinity_text
  | S754_zero s => sign_text s ++ "0"
  | S754_finite s m e =>
      let '(d, k, n) := shortest (Zpos m) e in
      let p := n - k + 3 in
      let thousandths :=
        if (0 <=? p) then d * 10 ^ p
        else (2 * d + 10 ^ (- p)) / (2 * 10 ^ (- p)) in
      sign_text s ++ String_of_Z (thousandths / 1000)
                  ++ fraction_text (thousandths mod 1000)
  end.

End Num.

(** ** The UTXO engine: [BtcServiceV1] *)

Module Btc.

(** *** Data *)

(** An output of a transaction as the explorer lists it
    ([GET /addrs/{address}/full]): the addresses it pays and its value
    in satoshi.  The explorer lists an output that pays no address (a
    data carrier) with [addresses: null], here [None]. *)
Record Output : Type := mkOutput {
  addresses : option (list string);
  value : Z
}.

Record Tx : Type := mkTx {
  hash : string;
  outputs : list Output
}.

(** A bitcoinjs [Transaction]: the fields the service reads and
    writes.  Scripts and signatures are not represented; what depends
    on them ([byteLength], [toHex]) is an answer of the library. *)
Record TxIn : Type := mkTxIn {
  in_hash : string;
  in_index : Z
}.

Record TxOut : Type := mkTxOut {
  out_address : string;
  out_value : Z
}.

Record Transaction : Type := mkTransaction {
  ins : list TxIn;
  outs : list TxOut
}.

(** [sendBtcDto]: the amount in human units, the fee in whole satoshi
    per byte; [fee = None] is an absent field. *)
Record SendBtcDto : Type := mkSendBtcDto {
  private_key : string;
  to_address : string;
  amount : float;
  fee : option Z
}.

(** What the push endpoint answers: the hash of the accepted
    transaction; a rejection carrying
    [error.response.data.context.error]; or an error that does not
    carry it (no response, a body of another shape), on which reading
    [error.response.data.context.error.toString()] throws the
    [TypeError] of the first read that fails, whose message is
    [typeError]. *)
Inductive PushResponse : Type :=
| PushAccepted (tx_hash : string)
| PushRejected (context_error : string)
| PushUnreadable (typeError : string).

(** What [send] resolves to. *)
Inductive SendResult : Type :=
| Transferred (is_success_transaction : bool) (transaction_id from to : string)
              (sent_value : float) (timestamp : string)
| Refused (status : bool) (message : string).

Record BalanceResult : Type := mkBalanceResult {
  balance_status : bool;
  data : float
}.

(** The requests the service sends. *)
Inductive NetCall : Type :=
| GetFeesRecommended
| GetAddrsFull (address : string)
| GetDashboardsAddress (address : string)
| PostPushTransaction (hex : string).

(** The collaborators of one request. *)
Record World : Type := mkWorld {
  (** [bitcoin.ECPair.fromWIF(k)] and the p2pkh address of its public
      key; throws on a malformed key. *)
  p2pkh_of_WIF : string -> Exception + string;
  (** [validate] of bitcoin-address-validation *)
  validate : string -> bool;
  (** [convertToSatoshi] of common/helper/helper.function *)
  convertToSatoshi : float -> Z;
  (** [GET .../fees/recommended]: [response.data.hourFee] *)
  fees_recommended : Exception + Z;
  (** [GET /addrs/{address}/full]: [response.data.txs] *)
  addrs_full : string -> Exception + list Tx;
  (** [GET /dashboards/address/{address}]:
      [response.data.data[address]?.address], its [balance] *)
  dashboards_address : string -> Exception + option Z;
  (** [Transaction.byteLength()] *)
  byteLength : Transaction -> Z;
  (** [Transaction.toHex()]; throws on a transaction it cannot
      serialize, such as one with an output value that is negative *)
  toHex : Transaction -> Exception + string;
  (** [POST /push/transaction] *)
  push_transaction : string -> PushResponse;
  (** [String(Date.now())] *)
  Date_now : string
}.

Definition Task := Js.Task NetCall.

(** Modelled from the spec: [convertFromSatoshi] lives in
    common/helper/helper.function, which is not part of the sources at
    hand; the specification has satoshi as the atomic unit with 8
    decimals, so the human amount is the satoshi amount over 10^8, a
    division of numbers. *)
Definition convertFromSatoshi (satoshi : Z) : float :=
  PrimFloat.div (Num.Number_of_Z satoshi) (Num.Number_of_Z 100000000).

(** *** Array helpers *)

(** [xs.includes(a)] *)
Definition includes (xs : list string) (a : string) : bool :=
  existsb (String.eqb a) xs.

Definition Output_eqb (o1 o2 : Output) : bool :=
  match addresses o1, addresses o2 with
  | Some a1, Some a2 => if list_eq_dec string_dec a1 a2 then true else false
  | None, None => true
  | _, _ => false
  end
  && (value o1 =? value o2)%Z.

(** [xs.indexOf(x)]: the first position holding [x], -1 when there is
    none.  The elements are the objects of one parsed JSON array, and
    the only argument ever passed is an element that [find] returned;
    comparing by content then stops at the same position as comparing
    by identity (see [indexOf_find]). *)
Fixpoint indexOf_from (xs : list Output) (x : Output) (i : Z) : Z :=
  match xs with
  | [] => -1
  | y :: ys => if Output_eqb y x then i else indexOf_from ys x (i + 1)
  end.

Definition indexOf (xs : list Output) (x : Output) : Z := indexOf_from xs x 0.

(** [xs[i]] for a number [i]: [undefined] out of range. *)
Definition at_index {A} (xs : list A) (i : Z) : option A :=
  if (i <? 0)%Z then None else nth_error xs (Z.to_nat i).

(** *** Methods *)

Definition getAddressFromPrivateKey (w : World) (privateKey : string)
  : Exception + string :=
  p2pkh_of_WIF w privateKey.

Definition calculateAverageFee (w : World) : Task Z :=
  tryCatch
    (request GetFeesRecommended (fees_recommended w))
    rethrow.

(** [outputs.find((output) => output.addresses.includes(address))]:
    the first output whose addresses include [address], [undefined]
    when there is none; reading [includes] off the [null] of an output
    met on the way throws. *)
Fixpoint findOutput (address : string) (outputs : list Output)
  : Exception + option Output :=
  match outputs with
  | [] => inr None
  | output :: rest =>
      match addresses output with
      | None => inl (JsError "Cannot read properties of null (reading 'includes')")
      | Some listed =>
          if includes listed address then inr (Some output)
          else findOutput address rest
      end
  end.

(** The body of [getPreviousTransactionHashAndOutputIndex] once
    [response.data.txs] is at hand. *)
Definition selectPreviousOutput (address : string) (txs : list Tx)
  : Exception + (string * Z) :=
  match txs with
  | [] => inl (HttpException "No previous transactions found" BAD_REQUEST)
  | tx0 :: _ =>
      let previousTransaction := last txs tx0 in
      match findOutput address (outputs previousTransaction) with
      | inl e => inl e
      | inr None => inl (HttpException "Previous output not found" BAD_REQUEST)
      | inr (Some previousOutput) =>
          inr (hash previousTransaction,
               indexOf (outputs previousTransaction) previousOutput)
      end
  end.

Definition getPreviousTransactionHashAndOutputIndex
           (w : World) (address : string) (amount : float) : Task (string * Z) :=
  tryCatch
    (txs <- request (GetAddrsFull address) (addrs_full w address) ;;
     lift (selectPreviousOutput address txs))
    rethrow.

Definition balance (w : World) (address : string) : Task BalanceResult :=
  tryCatch
    (if negb (validate w address)
     then throw (HttpException "Incorrect address" BAD_REQUEST)
     else
       balanceData <- request (GetDashboardsAddress address)
                              (dashboards_address w address) ;;
       match balanceData with
       | None =>
           throw (JsError "Cannot read properties of null (reading 'balance')")
       | Some balance => ret (mkBalanceResult true (convertFromSatoshi balance))
       end)
    rethrow.

(** The [TransactionBuilder] calls of [send]: one [addInput], one
    [addOutput], [sign] (which adds no input and no output) and
    [build]. *)
Definition addInput (txb : Transaction) (txHash : string) (vout : Z) : Transaction :=
  mkTransaction (ins txb ++ [mkTxIn txHash vout])%list (outs txb).

Definition addOutput (txb : Transaction) (address : string) (v : Z) : Transaction :=
  mkTransaction (ins txb) (outs txb ++ [mkTxOut address v])%list.

Definition buildTransaction (w : World) (previousTransactionHash : string)
           (previousOutputIndex : Z) (toAddress : string) (amount : float)
  : Transaction :=
  let txb := mkTransaction [] [] in
  let txb := addInput txb previousTransactionHash previousOutputIndex in
  addOutput txb toAddress (convertToSatoshi w amount).

(** [tx.outs[i].value = v]: a [TypeError] when [tx.outs[i]] is
    [undefined]. *)
Fixpoint set_value (os : list TxOut) (n : nat) (v : Z) : option (list TxOut) :=
  match os, n with
  | [], _ => None
  | o :: os', O => Some (mkTxOut (out_address o) v :: os')
  | o :: os', S n' => option_map (cons o) (set_value os' n' v)
  end.

Definition setOutValue (tx : Transaction) (i : Z) (v : Z) : Exception + Transaction :=
  match (if (i <? 0)%Z then None else set_value (outs tx) (Z.to_nat i) v) with
  | Some os => inr (mkTransaction (ins tx) os)
  | None =>
      inl (JsError "Cannot set properties of undefined (setting 'value')")
  end.

(** Lines 229-238 of [send]: guard the index, then overwrite the value
    of the output at that index. *)
Definition settleFee (calculateFee previousOutputIndex : Z)
           (builtTransaction : Transaction) : Exception + Transaction :=
  if (previousOutputIndex >=? Z.of_nat (length (outs builtTransaction)))%Z
  then inl (HttpException
              ("Output with index " ++ String_of_Z previousOutputIndex
               ++ " does not exist.") BAD_REQUEST)
  else setOutValue builtTransaction previousOutputIndex calculateFee.

(** Lines 243-256 of [send]: what the balance is compared with, a sum
    of numbers.  [parseFloat] of a number gives the number back. *)
Definition totalPay (feePerByte calculateFee : Z) (builtTransaction : Transaction)
           (amount : float) : float :=
  let totalFeePerOutput := calculateFee in
  let totalFeePerInput := feePerByte * Z.of_nat (length (ins builtTransaction)) in
  let totalFee := totalFeePerOutput + totalFeePerInput in
  PrimFloat.add (convertFromSatoshi totalFee) amount.

(** The observable [send] returns: the POST with its [map] and
    [catchError]. *)
Definition pushTransaction (w : World) (address : string) (dto : SendBtcDto)
           (hexTransaction : string) : Task SendResult :=
  response <- request (PostPushTransaction hexTransaction)
                      (inr (push_transaction w hexTransaction)) ;;
  match response with
  | PushAccepted h =>
      ret (Transferred true h address (to_address dto) (amount dto) (Date_now w))
  | PushRejected errorMessage =>
      if errorMessage =? "Invalid transaction. Error: txn-mempool-conflict"
      then ret (Refused false
                  "You have an incomplete transaction. Wait until the previous transaction is completed")
      else ret (Refused false errorMessage)
  | PushUnreadable typeError => throw (JsError typeError)
  end.

(** [sendBtcDto.fee || (await this.calculateAverageFee())]: an absent
    fee and a fee of 0 are both falsy. *)
Definition feePerByte (w : World) (dto : SendBtcDto) : Task Z :=
  match fee dto with
  | Some f => if (f =? 0)%Z then calculateAverageFee w else ret f
  | None => calculateAverageFee w
  end.

(** The part of [send] inside [try]: everything up to the observable.
    The test [previousOutputIndex === undefined] of lines 192-197 has
    no counterpart: the index is what [indexOf] returned, a number.
    The [TransactionBuilder] calls are taken to go through. *)
Definition prepare (w : World) (dto : SendBtcDto) : Task (string * string) :=
  tryCatch
    (address <- lift (getAddressFromPrivateKey w (private_key dto)) ;;
     let toAddress := to_address dto in
     feePerByte <- feePerByte w dto ;;
     if negb (validate w toAddress)
     then throw (HttpException "Incorrect recipient address" BAD_REQUEST)
     else
       '(previousTransactionHash, previousOutputIndex) <-
          getPreviousTransactionHashAndOutputIndex w address (amount dto) ;;
       let builtTransaction :=
         buildTransaction w previousTransactionHash previousOutputIndex
                          toAddress (amount dto) in
       let transactionSize := byteLength w builtTransaction in
       let calculateFee := feePerByte * transactionSize in
       settled <- lift (settleFee calculateFee previousOutputIndex builtTransaction) ;;
       hexTransaction <- lift (toHex w settled) ;;
       let totalPayFormat := totalPay feePerByte calculateFee settled (amount dto) in
       userBalance <- balance w address ;;
       if PrimFloat.ltb (data userBalance) totalPayFormat
       then throw (HttpException "Insufficient coin balance" INTERNAL_SERVER_ERROR)
       else ret (address, hexTransaction))
    rethrow.

Definition send (w : World) (dto : SendBtcDto) : Task SendResult :=
  '(address, hexTransaction) <- prepare w dto ;;
  pushTransaction w address dto hexTransaction.

(** A run has broadcast when its requests hold a POST to the push
    endpoint. *)
Definition isPush (c : NetCall) : bool :=
  match c with PostPushTransaction _ => true | _ => false end.

Definition broadcast (t : list NetCall) : bool := existsb isPush t.

End Btc.

(** ** The account-model engine: [Web3Service] *)

Module Web3.

(** *** Numbers *)

(** [parseInt(String(n / 2))] for an integer [n] a number holds
    exactly: [n / 2] is exact, its text has no exponent, and
    [parseInt] drops what follows the point. *)
Definition parseInt_of_half (n : Z) : Z := Z.quot n 2.

(** *** Data *)

Record BalanceWeb3Dto : Type := mkBalanceWeb3Dto {
  b_address : string;
  b_type : string;
  b_contract : option string
}.

(** [sendWeb3Dto]; [None] is an absent field. *)
Record SendWeb3Dto : Type := mkSendWeb3Dto {
  private_key : string;
  to_address : string;
  amount : float;
  type : string;
  contract : option string;
  gas_limit : option Z
}.

(** The record handed to [signTransaction]. *)
Inductive TransactionConfig : Type :=
| CoinTransfer (from nonce : string) (gas : Z) (to value chainId : string)
| TokenTransfer (from to : string) (gas : Z) (data : string).

Record GasFees : Type := mkGasFees {
  g_amount : string;
  tx : string;
  gasLimit : Z;
  gasPrice : Z;
  estimateGasFees : string
}.

(** [{status, data}] of [balance]; [data = None] is [undefined]. *)
Record BalanceResult : Type := mkBalanceResult {
  status : bool;
  data : option float
}.

Record SendResult : Type := mkSendResult {
  s_status : bool;
  receipt : string
}.

(** What goes to the RPC node or may go there. *)
Inductive RpcCall : Type :=
| EthGetBalance (address : string)
| EthGetTransactionCount (address : string)
| EthGetGasPrice
| CallDecimals (contract : string)
| CallBalanceOf (contract address : string)
| EstimateGasTransfer (contract to amount from : string)
| SignTransaction (transaction : option TransactionConfig)
| SendSignedTransaction (rawTransaction : string).

(** The node behind [chainLink] and the web3 library. *)
Record Node : Type := mkNode {
  (** [getAddressByPrivateKey] of common/helper/helper.function *)
  getAddressByPrivateKey : string -> Exception + string;
  isAddress : string -> bool;
  utils_toWei_ether : string -> Exception + string;
  utils_fromWei : string -> Exception + string;
  utils_toHex : Z -> string;
  parseFloat : string -> float;
  eth_getBalance : string -> Exception + string;
  eth_getTransactionCount : string -> Exception + Z;
  eth_getGasPrice : Exception + Z;
  call_decimals : string -> Exception + N;
  call_balanceOf : string -> string -> Exception + Z;
  estimateGas_transfer : string -> string -> string -> string -> Exception + Z;
  encodeABI_transfer : string -> string -> Exception + string;
  signTransaction : option TransactionConfig -> string -> Exception + string;
  sendSignedTransaction : string -> Exception + string;
  (** [Math.pow(10, d)] of the engine for [d] above 22, where ten to
      the [d] is no number and engines differ in the last place *)
  Math_pow_beyond : N -> float
}.

Definition Task := Js.Task RpcCall.

(** [isAddress] of a field that may be absent. *)
Definition isAddress_opt (n : Node) (a : option string) : bool :=
  match a with Some s => isAddress n s | None => false end.

(** A contract address passed on to the library; an absent one never
    gets that far. *)
Definition contract_text (a : option string) : string :=
  match a with Some s => s | None => "" end.

(** [Number(g) > 0] and [g > 0] for a field that may be absent. *)
Definition positive_limit (g : option Z) : bool :=
  match g with Some z => (0 <? z)%Z | None => false end.

(** [Number(g)] of a limit that may be absent: [Number(undefined)] is
    [NaN]. *)
Definition Number_of_limit (g : option Z) : float :=
  match g with Some z => Num.Number_of_Z z | None => PrimFloat.nan end.

(** [Number(g) * Number(p)], a product of numbers; the gas price [p]
    comes as the decimal text of an integer. *)
Definition Number_mul (g : option Z) (p : Z) : float :=
  PrimFloat.mul (Number_of_limit g) (Num.Number_of_Z p).

(** [Math.pow(10, d)] for a count of decimals [d]: up to 22 ten to the
    [d] is a number and the power is that number. *)
Definition Math_pow10 (n : Node) (d : N) : float :=
  if (d <=? 22)%N then Num.Number_of_Z (10 ^ Z.of_N d) else Math_pow_beyond n d.

(** *** Methods *)

Definition getContractDecimal (n : Node) (contract : string) : Task N :=
  request (CallDecimals contract) (call_decimals n contract).

Definition balanceCall (n : Node) (contract address : string) : Task Z :=
  request (CallBalanceOf contract address) (call_balanceOf n contract address).

Definition calculateEstimateGasFees (n : Node) (amount address : string)
           (dto : SendWeb3Dto) : Task GasFees :=
  let usedGasLimit := gas_limit dto in
  gasPrice <- request EthGetGasPrice (eth_getGasPrice n) ;;
  let gasFees := Number_mul usedGasLimit gasPrice in
  let estimated : Task Z :=
    estimateGas <- request
      (EstimateGasTransfer (contract_text (contract dto)) (to_address dto)
                           amount address)
      (estimateGas_transfer n (contract_text (contract dto))
                            (to_address dto) amount address) ;;
    ret (parseInt_of_half estimateGas + estimateGas) in
  usedGasLimit' <-
    match usedGasLimit with
    | Some g => if (0 <? g)%Z then ret g else estimated
    | None => estimated
    end ;;
  finalGasFees <- lift (utils_fromWei n (Num.Number_text gasFees)) ;;
  ret (mkGasFees amount "ok" usedGasLimit' gasPrice finalGasFees).

Definition balance (n : Node) (dto : BalanceWeb3Dto) : Task BalanceResult :=
  tryCatch
    (let validateAddress := isAddress n (b_address dto) in
     if validateAddress then
       balance1 <-
         (if b_type dto =? "coin" then
            getBalance <- request (EthGetBalance (b_address dto))
                                  (eth_getBalance n (b_address dto)) ;;
            wei <- lift (utils_fromWei n getBalance) ;;
            ret (Some (parseFloat n wei))
          else ret None) ;;
       balance2 <-
         (if b_type dto =? "token" then
            let validateContract := isAddress_opt n (b_contract dto) in
            if validateContract then
              decimal <- getContractDecimal n (contract_text (b_contract dto)) ;;
              held <- balanceCall n (contract_text (b_contract dto)) (b_address dto) ;;
              ret (Some (PrimFloat.div (Num.Number_of_Z held) (Math_pow10 n decimal)))
            else throw (HttpException "Incorrect contract address" BAD_REQUEST)
          else ret balance1) ;;
       ret (mkBalanceResult true balance2)
     else throw (HttpException "Incorrect address" BAD_REQUEST))
    rethrow.

(** The amount of a token transfer in atomic units, as the text put
    into the call data. *)
Definition tokenAmount (n : Node) (amount : float) (decimal : N) : string :=
  Num.toLocaleString (PrimFloat.mul amount (Math_pow10 n decimal)).

Definition send (n : Node) (chainId : string) (dto : SendWeb3Dto)
  : Task SendResult :=
  tryCatch
    (address <- lift (getAddressByPrivateKey n (private_key dto)) ;;
     let validateRecipientAddress := isAddress n (to_address dto) in
     if validateRecipientAddress then
       transaction1 <-
         (if type dto =? "coin" then
            amount <- lift (utils_toWei_ether n (Num.Number_text (amount dto))) ;;
            nonce <- request (EthGetTransactionCount address)
                             (eth_getTransactionCount n address) ;;
            let usedGasLimit :=
              match gas_limit dto with
              | Some g => if (0 <? g)%Z then g else 63000
              | None => 63000
              end in
            ret (Some (CoinTransfer address (utils_toHex n nonce) usedGasLimit
                                    (to_address dto) amount chainId))
          else ret None) ;;
       transaction2 <-
         (if type dto =? "token" then
            let validateContract := isAddress_opt n (contract dto) in
            if validateContract then
              decimal <- getContractDecimal n (contract_text (contract dto)) ;;
              let amount := tokenAmount n (amount dto) decimal in
              fees <- calculateEstimateGasFees n amount address dto ;;
              callData <- lift (encodeABI_transfer n (to_address dto) amount) ;;
              ret (Some (TokenTransfer address (contract_text (contract dto))
                                       (gasLimit fees) callData))
            else throw (HttpException "Incorrect contract address" BAD_REQUEST)
          else ret transaction1) ;;
       rawTransaction <- request (SignTransaction transaction2)
                                 (signTransaction n transaction2 (private_key dto)) ;;
       receipt <- request (SendSignedTransaction rawTransaction)
                          (sendSignedTransaction n rawTransaction) ;;
       ret (mkSendResult true receipt)
     else throw (HttpException "Incorrect recipient address" BAD_REQUEST))
    rethrow.

End Web3.

(** ** Sample collaborators

  Concrete answers, to run the methods on. *)

Module Sample.

Import Btc.

Definition source : string := "1BoatSLRHtKNngkdXEeobR76b53LETtpyT".
Definition destination : string := "1A1zP1eP5QGefi2DMPTfTL5SLmv7DivfNa".

Definition paysTo (a : string) (v : Z) : Output := mkOutput (Some [a]) v.

(** An output that pays no address. *)
Definition dataCarrier : Output := mkOutput None 0.

(** A transaction that pays the source at output 0. *)
Definition funding : Tx := mkTx "f0e1" [paysTo source 250000].

(** A transaction that pays the source at output 1. *)
Definition change : Tx := mkTx "c4a2" [paysTo destination 1000; paysTo source 90000].

(** A transaction that pays someone else only. *)
Definition spending : Tx := mkTx "9b7d" [paysTo destination 40000].

(** A transaction that carries data and pays someone else. *)
Definition notarized : Tx := mkTx "4e07" [dataCarrier; paysTo destination 40000].

(** The whole part of a number that is not negative. *)
Definition whole (x : float) : Z :=
  match Prim2SF x with
  | S754_finite false m e =>
      if (0 <=? e)%Z then Zpos m * 2 ^ e else Zpos m / 2 ^ (- e)
  | _ => 0
  end.

(** The number 0.001. *)
Definition amount_sent : float :=
  PrimFloat.div (Num.Number_of_Z 1) (Num.Number_of_Z 1000).

(** A world where every collaborator answers: the history of every
    address is [txs], its balance [bal] satoshi, the estimator
    recommends 20 satoshi per byte, every built transaction measures
    191 bytes, and the push endpoint answers [push]. *)
Definition world (txs : list Tx) (bal : Z) (push : PushResponse) : World :=
  {| p2pkh_of_WIF := fun _ => inr source;
     validate := fun a => (a =? source) || (a =? destination);
     convertToSatoshi := fun x =>
       whole (PrimFloat.mul x (Num.Number_of_Z 100000000));
     fees_recommended := inr 20;
     addrs_full := fun _ => inr txs;
     dashboards_address := fun _ => inr (Some bal);
     byteLength := fun _ => 191;
     toHex := fun tx =>
       if forallb (fun o => (0 <=? out_value o)%Z) (outs tx)
       then inr (String.concat ";"
                   (map (fun o => out_address o ++ ":" ++ String_of_Z (out_value o))
                        (outs tx)))
       else inl (JsError "value out of range");
     push_transaction := fun _ => push;
     Date_now := "1700000000000" |}.

(** 0.001 of the coin to [to], at [fee] satoshi per byte. *)
Definition order (to : string) (fee : option Z) : SendBtcDto :=
  mkSendBtcDto "KwDiBf89QgGbjEhKnhXJuH7LrciVrZi3qYjgd9M7rFU73sVHnoWn"
               to amount_sent fee.

(** A node where every call answers: a token of [decimals] decimals, a
    gas price of 5 gwei, a transfer estimated at [estimate] gas.  The
    library conversions are stand-ins that pass their text on. *)
Definition node (decimals : N) (estimate : Z) : Web3.Node :=
  {| Web3.getAddressByPrivateKey := fun _ => inr "0x52908400098527886E0F7030069857D2E4169EE7";
     Web3.isAddress := fun a => (String.length a =? 42)%nat;
     Web3.utils_toWei_ether := fun s => inr s;
     Web3.utils_fromWei := fun s => inr s;
     Web3.utils_toHex := String_of_Z;
     Web3.parseFloat := fun _ => PrimFloat.zero;
     Web3.eth_getBalance := fun _ => inr "0";
     Web3.eth_getTransactionCount := fun _ => inr 7;
     Web3.eth_getGasPrice := inr 5000000000;
     Web3.call_decimals := fun _ => inr decimals;
     Web3.call_balanceOf := fun _ _ => inr 0;
     Web3.estimateGas_transfer := fun _ _ _ _ => inr estimate;
     Web3.encodeABI_transfer := fun to amount => inr (to ++ ":" ++ amount);
     Web3.signTransaction := fun _ _ => inr "0xf86c";
     Web3.sendSignedTransaction := fun _ => inr "receipt";
     Web3.Math_pow_beyond := fun d => Num.Number_of_Z (10 ^ Z.of_N d) |}.

(** The texts a conversion from wei takes: the decimal digits of an
    integer, with or without a sign. *)
Definition isDigit (c : ascii) : bool :=
  let k := nat_of_ascii c in (48 <=? k)%nat && (k <=? 57)%nat.

Definition isIntegerText (s : string) : bool :=
  match s with
  | String "-" (String c rest) => forallb isDigit (c :: list_ascii_of_string rest)
  | String c rest => forallb isDigit (c :: list_ascii_of_string rest)
  | EmptyString => false
  end.

(** The same node with a conversion from wei that takes the text of an
    integer and rejects any other, the text of NaN among them. *)
Definition strictNode (decimals : N) (estimate : Z) : Web3.Node :=
  let n := node decimals estimate in
  {| Web3.getAddressByPrivateKey := Web3.getAddressByPrivateKey n;
     Web3.isAddress := Web3.isAddress n;
     Web3.utils_toWei_ether := Web3.utils_toWei_ether n;
     Web3.utils_fromWei := fun s =>
       if isIntegerText s then inr s
       else inl (JsError "invalid number value");
     Web3.utils_toHex := Web3.utils_toHex n;
     Web3.parseFloat := Web3.parseFloat n;
     Web3.eth_getBalance := Web3.eth_getBalance n;
     Web3.eth_getTransactionCount := Web3.eth_getTransactionCount n;
     Web3.eth_getGasPrice := Web3.eth_getGasPrice n;
     Web3.call_decimals := Web3.call_decimals n;
     Web3.call_balanceOf := Web3.call_balanceOf n;
     Web3.estimateGas_transfer := Web3.estimateGas_transfer n;
     Web3.encodeABI_transfer := Web3.encodeABI_transfer n;
     Web3.signTransaction := Web3.signTransaction n;
     Web3.sendSignedTransaction := Web3.sendSignedTransaction n;
     Web3.Math_pow_beyond := Web3.Math_pow_beyond n |}.

Definition holder : string := "0x8617E340B3D01FA5F11F306F4090FD50E238070D".
Definition token : string := "0xde709f2102306220921060314715629080e2fb77".

(** The numbers 1.1 and 1.5. *)
Definition one_point_one : float := 0x1.199999999999ap+0%float.
Definition one_and_a_half : float := 0x1.8p+0%float.

(** [amount] of the token to [holder], with the gas limit [gas]. *)
Definition transfer (amount : float) (gas : option Z) : Web3.SendWeb3Dto :=
  Web3.mkSendWeb3Dto "0x4c0883a69102937d6231471b5dbb6204fe5129617082792ae468d01a3f362318"
                     holder amount "token" (Some token) gas.

End Sample.

(** ** Vocabulary of the statements *)

Module BtcSpec.

Import Btc.

(** What [feePerByte] resolves to, and the requests it sends. *)
Definition feeRate (w : World) (dto : SendBtcDto) : Exception + Z :=
  match fee dto with
  | Some f => if (f =? 0)%Z then fees_recommended w else inr f
  | None => fees_recommended w
  end.

Definition feeRequests (dto : SendBtcDto) : list NetCall :=
  match fee dto with
  | Some f => if (f =? 0)%Z then [GetFeesRecommended] else []
  | None => [GetFeesRecommended]
  end.

(** An output belongs to an address, a transaction pays it. *)
Definition belongsTo (address : string) (output : Output) : bool :=
  match addresses output with
  | Some listed => includes listed address
  | None => false
  end.

(** An output lists its addresses, or has [null] for them. *)
Definition listed (output : Output) : bool :=
  match addresses output with Some _ => true | None => false end.

Definition pays (address : string) (tx : Tx) : bool :=
  existsb (belongsTo address) (outputs tx).

(** The transaction the resolution looks at:
    [data.txs[data.txs.length - 1]]. *)
Definition selectedTransaction (txs : list Tx) : option Tx :=
  match txs with
  | [] => None
  | tx0 :: _ => Some (last txs tx0)
  end.

(** The position of the first element that satisfies [p]. *)
Fixpoint firstIndex {A} (p : A -> bool) (xs : list A) : option nat :=
  match xs with
  | [] => None
  | x :: xs' => if p x then Some O else option_map S (firstIndex p xs')
  end.

(** What reading [includes] of [null] throws. *)
Definition NullAddresses : Exception :=
  JsError "Cannot read properties of null (reading 'includes')".

(** The search of [findOutput] by position: the position of the first
    output of [address], none when no output is of the address, and
    the failure of [findOutput] when an output before any of the
    address has [null] for its addresses. *)
Fixpoint scan (address : string) (outputs : list Output) : Exception + option nat :=
  match outputs with
  | [] => inr None
  | output :: rest =>
      match addresses output with
      | None => inl NullAddresses
      | Some listed =>
          if includes listed address then inr (Some O)
          else match scan address rest with
               | inr (Some n) => inr (Some (S n))
               | other => other
               end
      end
  end.

(** The resolution as the specification words it: of the transactions
    of the history whose output list contains the address, the most
    recent one (the last of the list, as [send] reads it), and with
    it the index of the matching output. *)
Definition spec_selectPreviousOutput (address : string) (txs : list Tx)
  : option (string * Z) :=
  match rev (filter (pays address) txs) with
  | [] => None
  | tx :: _ =>
      option_map (fun i => (hash tx, Z.of_nat i))
                 (firstIndex (belongsTo address) (outputs tx))
  end.

(** The failures of the specification, as the service throws them. *)
Definition InvalidAddress : Exception :=
  HttpException "Incorrect recipient address" BAD_REQUEST.
Definition NoPriorTransactions : Exception :=
  HttpException "No previous transactions found" BAD_REQUEST.
Definition NoMatchingOutput : Exception :=
  HttpException "Previous output not found" BAD_REQUEST.
Definition InsufficientBalance : Exception :=
  HttpException "Insufficient coin balance" INTERNAL_SERVER_ERROR.
Definition OutputDoesNotExist (i : Z) : Exception :=
  HttpException ("Output with index " ++ String_of_Z i ++ " does not exist.")
                BAD_REQUEST.

(** [send] gets as far as resolving the prior output: the key yields
    [address], the fee rate resolves to [f], the destination is
    valid. *)
Definition resolves (w : World) (dto : SendBtcDto) (address : string) (f : Z) : Prop :=
  getAddressFromPrivateKey w (private_key dto) = inr address
  /\ feeRate w dto = inr f
  /\ validate w (to_address dto) = true.



End BtcSpec.

(** ** The read-only companions of the UTXO engine

    [BtcServiceV1.transaction] and [BtcServiceV1.transactions]. *)

Module BtcHistory.

Import Btc.

(** [response.data.data[hash]] of [GET /dashboards/transaction/{hash}]:
    [transaction] with its [hash], [fee], [time] and [block_id], the
    [recipient] of every input, the [recipient] and [value] of every
    output. *)
Record TransactionInfo : Type := mkTransactionInfo {
  info_hash : string;
  info_fee : Z;
  info_time : string;
  block_id : Z
}.

Record Recipient : Type := mkRecipient {
  recipient : string;
  recipient_value : Z
}.

Record TransactionData : Type := mkTransactionData {
  transaction_info : TransactionInfo;
  inputs : list Recipient;
  outputs : list Recipient
}.

(** The [data] of what [transaction] returns. *)
Record TransactionView : Type := mkTransactionView {
  is_success_transaction : bool;
  transaction_id : string;
  from : string;
  to : string;
  view_value : float;
  view_fee : float;
  timestamp : Z
}.

Record TransactionResult : Type := mkTransactionResult {
  status : bool;
  data : TransactionView
}.

Record TransactionsResult : Type := mkTransactionsResult {
  list_status : bool;
  list_data : list TransactionView
}.

(** The requests of the two methods: the address dashboard, which
    [balance] asks too, and the transaction dashboard. *)
Inductive Call : Type :=
| Net (c : NetCall)
| GetDashboardsTransaction (hash : string).

(** The collaborators: those of [World], and of the explorer's answers
    what these two methods read. *)
Record Explorer : Type := mkExplorer {
  world : World;
  (** [GET /dashboards/transaction/{hash}]: [response.data.data[hash]] *)
  dashboards_transaction : string -> Exception + option TransactionData;
  (** [GET /dashboards/address/{address}]: [response.data.data[address]],
      its [transactions] *)
  dashboards_address_transactions : string -> Exception + option (list string);
  (** [new Date(time).getTime()] *)
  Date_getTime : string -> Z
}.

Definition Task := Js.Task Call.

(** [new HttpException(e.message, HttpStatus.INTERNAL_SERVER_ERROR)],
    the handler of [transaction]: the text alone, no cause. *)
Definition rethrowMessage {A} (e : Exception) : Task A :=
  throw (HttpException (message e) INTERNAL_SERVER_ERROR).

(** The [data] object [transaction] builds from [transaction],
    [inputs[0]] and [outputs[0]]: [is_success_transaction] is
    [block_id !== -1], amounts are converted from satoshi. *)
Definition view (x : Explorer) (d : TransactionData) (input output : Recipient)
  : TransactionView :=
  mkTransactionView
    (negb (block_id (transaction_info d) =? -1)%Z)
    (info_hash (transaction_info d))
    (recipient input) (recipient output)
    (convertFromSatoshi (recipient_value output))
    (convertFromSatoshi (info_fee (transaction_info d)))
    (Date_getTime x (info_time (transaction_info d))).

Definition transaction (x : Explorer) (hash : string) : Task TransactionResult :=
  tryCatch
    (transactionData <- request (GetDashboardsTransaction hash)
                                (dashboards_transaction x hash) ;;
     match transactionData with
     | None =>
         throw (JsError "Cannot read properties of undefined (reading 'transaction')")
     | Some d =>
         match at_index (inputs d) 0, at_index (outputs d) 0 with
         | Some input, Some output =>
             ret (mkTransactionResult true (view x d input output))
         | _, _ =>
             throw (JsError "Cannot read properties of undefined (reading 'recipient')")
         end
     end)
    rethrowMessage.

(** The loop of [transactions]: one lookup per hash, in turn, each
    result pushed onto [transactionList]. *)
Fixpoint lookupEach (x : Explorer) (transactionList : list TransactionView)
         (hashes : list string) : Task (list TransactionView) :=
  match hashes with
  | [] => ret transactionList
  | hash :: rest =>
      transactionData <- transaction x hash ;;
      lookupEach x (transactionList ++ [data transactionData])%list rest
  end.

Definition transactions (x : Explorer) (address : string) : Task TransactionsResult :=
  tryCatch
    (if negb (validate (world x) address)
     then throw (HttpException "Incorrect address" BAD_REQUEST)
     else
       found <- request (Net (GetDashboardsAddress address))
                        (dashboards_address_transactions x address) ;;
       match found with
       | None => throw (HttpException "Address not found" BAD_REQUEST)
       | Some hashes =>
           transactionList <- lookupEach x [] hashes ;;
           ret (mkTransactionsResult true transactionList)
       end)
    rethrow.

(** What [transaction] shows of [hash], when it shows anything: the
    explorer must know the transaction, and the transaction must have
    an input and an output. *)
Definition shown (x : Explorer) (hash : string) : option TransactionView :=
  match dashboards_transaction x hash with
  | inr (Some d) =>
      match at_index (inputs d) 0, at_index (outputs d) 0 with
      | Some input, Some output => Some (view x d input output)
      | _, _ => None
      end
  | _ => None
  end.

(** An explorer over the sample world that knows the transactions
    [known], by hash. *)
Definition sampleExplorer (known : list (string * TransactionData))
           (history : option (list string)) : Explorer :=
  {| world := Sample.world [] 0 (PushAccepted "aa");
     dashboards_transaction := fun h =>
       inr (option_map snd (find (fun kv => (fst kv =? h)%string) known));
     dashboards_address_transactions := fun _ => inr history;
     Date_getTime := fun _ => 1700000000000 |}.

Definition payment : TransactionData :=
  mkTransactionData (mkTransactionInfo "f0e1" 1910 "2023-11-14 22:13:20" 816000)
                    [mkRecipient Sample.destination 300000]
                    [mkRecipient Sample.source 250000;
                     mkRecipient Sample.destination 48090].

Definition pending : TransactionData :=
  mkTransactionData (mkTransactionInfo "9b7d" 1910 "2023-11-14 22:13:20" (-1))
                    [mkRecipient Sample.source 250000]
                    [mkRecipient Sample.destination 40000].

(** A coinbase-like entry without inputs. *)
Definition inputless : TransactionData :=
  mkTransactionData (mkTransactionInfo "c0b4" 0 "2023-11-14 22:13:20" 816001)
                    []
                    [mkRecipient Sample.source 625000000].

End BtcHistory.

(** ** Vocabulary of the statements on the account-model engine *)

Module Web3Spec.

Import Web3.

(** The gas of a coin transfer:
    [sendWeb3Dto.gas_limit > 0 ? sendWeb3Dto.gas_limit : 63000]. *)
Definition coinGas (g : option Z) : Z :=
  match g with
  | Some z => if (0 <? z)%Z then z else 63000
  | None => 63000
  end.

(** The submissions among the requests of a run. *)
Definition isSubmission (c : RpcCall) : bool :=
  match c with SendSignedTransaction _ => true | _ => false end.

Definition submissions (t : list RpcCall) : list RpcCall := filter isSubmission t.

Definition IncorrectContract : Exception :=
  HttpException "Incorrect contract address" BAD_REQUEST.

(** 1.5 of the coin to [Sample.holder], with the gas limit [gas]. *)
Definition coinOrder (gas : option Z) : SendWeb3Dto :=
  mkSendWeb3Dto "0x4c0883a69102937d6231471b5dbb6204fe5129617082792ae468d01a3f362318"
                Sample.holder Sample.one_and_a_half "coin" None gas.

End Web3Spec.

(** ** Properties of the numbers *)

Module NumFacts.

Import Num.

(** [Number::toString] on numbers of every form of the text: an
    integer, a fraction, a small fraction, exponents of either sign,
    the largest and the smallest number. *)
Lemma Number_text_samples :
  Number_text (Number_of_Z 450000000000000) = "450000000000000"
  /\ Number_text (PrimFloat.div (Number_of_Z 1) (Number_of_Z 10)) = "0.1"
  /\ Number_text (PrimFloat.div (Number_of_Z 3) (Number_of_Z 2)) = "1.5"
  /\ Number_text (PrimFloat.add (PrimFloat.div (Number_of_Z 1) (Number_of_Z 10))
                                (PrimFloat.div (Number_of_Z 2) (Number_of_Z 10)))
     = "0.30000000000000004"
  /\ Number_text (PrimFloat.div (Number_of_Z 1) (Number_of_Z 1000000)) = "0.000001"
  /\ Number_text (PrimFloat.div (Number_of_Z 1) (Number_of_Z 10000000)) = "1e-7"
  /\ Number_text (Number_of_Z (10 ^ 21)) = "1e+21"
  /\ Number_text (Number_of_Z 123456789012345678901) = "123456789012345680000"
  /\ Number_text (PrimFloat.opp (Number_of_Z (2 ^ 53 + 1))) = "-9007199254740992"
  /\ Number_text 0x1.fffffffffffffp+1023%float = "1.7976931348623157e+308"
  /\ Number_text 0x0.0000000000001p-1022%float = "5e-324"
  /\ Number_text (PrimFloat.div (Number_of_Z 0) (Number_of_Z 0)) = "NaN"
  /\ Number_text (PrimFloat.div (Number_of_Z (-1)) (Number_of_Z 0)) = "-Infinity".
Proof. vm_compute. repeat split. Qed.

(** [toLocaleString('fullwide', {useGrouping: false})]: no exponent,
    at most three fraction digits, a half rounded away from zero. *)
Lemma toLocaleString_samples :
  toLocaleString (Number_of_Z (10 ^ 21)) = "1000000000000000000000"
  /\ toLocaleString (Number_of_Z 1100000000000000128) = "1100000000000000100"
  /\ toLocaleString (PrimFloat.div (Number_of_Z 3) (Number_of_Z 2)) = "1.5"
  /\ toLocaleString (PrimFloat.div (Number_of_Z 10005) (Number_of_Z 10000)) = "1.001"
  /\ toLocaleString (PrimFloat.div (Number_of_Z 12344) (Number_of_Z 10000)) = "1.234"
  /\ toLocaleString (PrimFloat.div (Number_of_Z 1) (Number_of_Z 10000)) = "0"
  /\ toLocaleString (PrimFloat.div (Number_of_Z (-5)) (Number_of_Z 2)) = "-2.5".
Proof. vm_compute. repeat split. Qed.

End NumFacts.

(** ** Properties of the UTXO engine *)

Module BtcFacts.

Import Btc BtcSpec.

(** *** Arrays *)

Lemma Output_eqb_eq (a b : Output) : Output_eqb a b = true <-> a = b.
Proof.
  destruct a as [[aa | ] av], b as [[ba | ] bv]; unfold Output_eqb; simpl.
  - destruct (list_eq_dec string_dec aa ba) as [E | E]; simpl.
    + rewrite Z.eqb_eq. split; intro H.
      * now subst.
      * now inversion H.
    + split; intro H; [discriminate | inversion H; contradiction].
  - split; intro H; discriminate.
  - split; intro H; discriminate.
  - rewrite Z.eqb_eq. split; intro H.
    + now subst.
    + now inversion H.
Qed.

Lemma firstIndex_Some {A} (p : A -> bool) (xs : list A) (n : nat) :
  firstIndex p xs = Some n ->
  exists x, nth_error xs n = Some x /\ p x = true
            /\ forall j y, (j < n)%nat -> nth_error xs j = Some y -> p y = false.
Proof.
  revert n; induction xs as [ | x xs IH]; intros n H; simpl in H.
  - discriminate.
  - destruct (p x) eqn:Px.
    + inversion H; subst. exists x. repeat split; auto.
      intros j y Hj; lia.
    + destruct (firstIndex p xs) as [m | ]; [ | discriminate].
      inversion H; subst. destruct (IH m eq_refl) as (x' & Hn & Hp & Hlt).
      exists x'. repeat split; auto.
      intros [ | j] y Hj Hy; simpl in Hy.
      * now inversion Hy; subst.
      * apply (Hlt j); [lia | assumption].
Qed.

Lemma firstIndex_None {A} (p : A -> bool) (xs : list A) :
  firstIndex p xs = None <-> existsb p xs = false.
Proof.
  induction xs as [ | x xs IH]; simpl.
  - tauto.
  - destruct (p x); simpl.
    + split; discriminate.
    + destruct (firstIndex p xs); simpl.
      * split; [discriminate | ]. intro H. apply IH in H. discriminate.
      * split; auto. intros _. now apply IH.
Qed.

(** What [find] returns satisfies its predicate. *)
Lemma findOutput_belongs (address : string) (xs : list Output) (x : Output) :
  findOutput address xs = inr (Some x) -> belongsTo address x = true.
Proof.
  induction xs as [ | y ys IH]; simpl; [discriminate | ].
  destruct (addresses y) as [l | ] eqn:Hy; [ | discriminate].
  destruct (includes l address) eqn:Hl; [ | exact IH].
  intro H; inversion H; subst. unfold belongsTo. now rewrite Hy.
Qed.

(** [indexOf] of what [find] returned is the position [find] stopped
    at: no earlier element is the same object, since none satisfies
    the predicate.  The search by position fails where [find] does. *)
Lemma indexOf_from_find (address : string) (xs : list Output) (i : Z) :
  match findOutput address xs with
  | inl e => scan address xs = inl e
  | inr None => scan address xs = inr None
  | inr (Some x) =>
      exists n, scan address xs = inr (Some n)
                /\ indexOf_from xs x i = i + Z.of_nat n
  end.
Proof.
  revert i; induction xs as [ | y ys IH]; intro i; simpl.
  - reflexivity.
  - destruct (addresses y) as [l | ] eqn:Hy; [ | reflexivity].
    destruct (includes l address) eqn:Hl.
    + exists O. split; auto.
      replace (Output_eqb y y) with true by (symmetry; now apply Output_eqb_eq).
      lia.
    + specialize (IH (i + 1)).
      destruct (findOutput address ys) as [e | [x | ]] eqn:F.
      * now rewrite IH.
      * destruct IH as (n & Hn & Hi). exists (S n). rewrite Hn. split; auto.
        destruct (Output_eqb y x) eqn:E.
        -- apply Output_eqb_eq in E. subst y.
           apply findOutput_belongs in F. unfold belongsTo in F.
           rewrite Hy in F. congruence.
        -- rewrite Hi. lia.
      * now rewrite IH.
Qed.

Lemma indexOf_find (address : string) (xs : list Output) :
  match findOutput address xs with
  | inl e => scan address xs = inl e
  | inr None => scan address xs = inr None
  | inr (Some x) =>
      exists n, scan address xs = inr (Some n) /\ indexOf xs x = Z.of_nat n
  end.
Proof. exact (indexOf_from_find address xs 0). Qed.

(** The search by position, in terms of the outputs. *)
Lemma scan_matched (address : string) (xs : list Output) (n : nat) (o : Output) :
  nth_error xs n = Some o ->
  belongsTo address o = true ->
  (forall j o', (j < n)%nat -> nth_error xs j = Some o' ->
                belongsTo address o' = false /\ listed o' = true) ->
  scan address xs = inr (Some n).
Proof.
  revert n; induction xs as [ | y ys IH]; intros [ | n] Hn Hb Hfirst;
    simpl in *; try discriminate.
  - inversion Hn; subst. unfold belongsTo in Hb.
    destruct (addresses o); [now rewrite Hb | discriminate].
  - destruct (Hfirst O y) as [Hyb Hyl]; [lia | reflexivity | ].
    unfold belongsTo in Hyb. unfold listed in Hyl.
    destruct (addresses y); [ | discriminate]. rewrite Hyb.
    rewrite (IH n Hn Hb); auto.
    intros j o' Hj Ho'. apply (Hfirst (S j)); [lia | exact Ho'].
Qed.

Lemma scan_unmatched (address : string) (xs : list Output) :
  scan address xs = inr None <->
  existsb (belongsTo address) xs = false /\ forallb listed xs = true.
Proof.
  induction xs as [ | y ys IH]; simpl.
  - tauto.
  - unfold belongsTo at 1, listed at 1.
    destruct (addresses y) as [l | ]; simpl.
    + destruct (includes l address); simpl.
      * split; [discriminate | intros [H _]; discriminate].
      * destruct (scan address ys) as [e | [n | ]].
        -- split; [discriminate | ]. intro H. apply IH in H. discriminate.
        -- split; [discriminate | ]. intro H. apply IH in H. discriminate.
        -- split; auto. intros _. now apply IH.
    + split; [discriminate | intros [_ H]; discriminate].
Qed.

Lemma scan_unlisted (address : string) (xs : list Output) (e : Exception) :
  scan address xs = inl e -> e = NullAddresses /\ forallb listed xs = false.
Proof.
  induction xs as [ | y ys IH]; simpl; [discriminate | ].
  unfold listed at 1.
  destruct (addresses y) as [l | ]; simpl.
  - destruct (includes l address); [discriminate | ].
    destruct (scan address ys) as [e' | [n | ]]; try discriminate.
    intro H; inversion H; subst. now apply IH.
  - intro H; inversion H. auto.
Qed.

Lemma scan_first (address : string) (xs : list Output) (n : nat) :
  scan address xs = inr (Some n) -> firstIndex (belongsTo address) xs = Some n.
Proof.
  revert n; induction xs as [ | y ys IH]; intro n; simpl; [discriminate | ].
  unfold belongsTo at 1.
  destruct (addresses y) as [l | ]; [ | discriminate].
  destruct (includes l address); [congruence | ].
  destruct (scan address ys) as [e | [m | ]]; try discriminate.
  intro H; inversion H; subst. now rewrite (IH m eq_refl).
Qed.

Lemma last_default_irrelevant {A} (x : A) (xs : list A) (d d' : A) :
  last (x :: xs) d = last (x :: xs) d'.
Proof.
  revert x; induction xs as [ | y ys IH]; intro x.
  - reflexivity.
  - change (last (y :: ys) d = last (y :: ys) d'). apply IH.
Qed.

(** *** The resolution of the prior output *)

(** What [selectPreviousOutput] returns, case by case. *)
Lemma selectPreviousOutput_selected (address : string) (txs : list Tx) :
  selectPreviousOutput address txs =
    match selectedTransaction txs with
    | None => inl NoPriorTransactions
    | Some tx =>
        match scan address (outputs tx) with
        | inl e => inl e
        | inr None => inl NoMatchingOutput
        | inr (Some n) => inr (hash tx, Z.of_nat n)
        end
    end.
Proof.
  destruct txs as [ | tx txs]; [reflexivity | ].
  unfold selectPreviousOutput, selectedTransaction.
  set (prev := last (tx :: txs) tx).
  pose proof (indexOf_find address (outputs prev)) as H.
  destruct (findOutput address (outputs prev)) as [e | [o | ]].
  - now rewrite H.
  - destruct H as (n & Hn & Hi). now rewrite Hn, Hi.
  - now rewrite H.
Qed.

Lemma selectPreviousOutput_index (address : string) (txs : list Tx) (h : string) (i : Z) :
  selectPreviousOutput address txs = inr (h, i) -> 0 <= i.
Proof.
  rewrite selectPreviousOutput_selected.
  destruct (selectedTransaction txs) as [tx | ]; [ | discriminate].
  destruct (scan address (outputs tx)) as [e | [n | ]]; try discriminate.
  intro H; inversion H; lia.
Qed.

(** *** The fee settlement *)

Lemma set_value_Some (os : list TxOut) (n : nat) (v : Z) (o : TxOut) :
  nth_error os n = Some o ->
  exists os', set_value os n v = Some os'
              /\ length os' = length os
              /\ nth_error os' n = Some (mkTxOut (out_address o) v)
              /\ forall j, j <> n -> nth_error os' j = nth_error os j.
Proof.
  revert n; induction os as [ | x xs IH]; intros [ | n] H; simpl in *;
    try discriminate.
  - inversion H; subst. eexists; repeat split.
    intros [ | j] Hj; [contradiction | reflexivity].
  - destruct (IH n H) as (os' & Hs & Hl & Hn & Ho). rewrite Hs; simpl.
    eexists; repeat split; simpl; auto.
    intros [ | j] Hj; simpl; auto.
Qed.

Lemma set_value_None (os : list TxOut) (n : nat) (v : Z) :
  set_value os n v = None <-> (length os <= n)%nat.
Proof.
  revert n; induction os as [ | x xs IH]; intros [ | n]; simpl.
  - split; auto.
  - split; auto; lia.
  - split; [discriminate | lia].
  - destruct (set_value xs n v) eqn:E; simpl.
    + split; [discriminate | ]. intro H.
      assert (Hn : (length xs <= n)%nat) by lia.
      apply IH in Hn. congruence.
    + split; auto. intros _. apply IH in E. lia.
Qed.

(** Past the guard, and with an index that is not negative, the write
    finds its output. *)
Lemma setOutValue_in_range (tx : Transaction) (i v : Z) :
  0 <= i ->
  (i >=? Z.of_nat (length (outs tx))) = false ->
  exists tx', setOutValue tx i v = inr tx'.
Proof.
  intros Hi Hg. unfold setOutValue.
  destruct (Z.ltb_spec i 0); [lia | ].
  destruct (set_value (outs tx) (Z.to_nat i) v) eqn:E; [eauto | ].
  apply set_value_None in E.
  rewrite Z.geb_leb in Hg. apply Z.leb_gt in Hg. lia.
Qed.

(** [settleFee] replaces the value of output [i] and nothing else. *)
Lemma settleFee_overwrites (calculateFee i : Z) (tx : Transaction) (o : TxOut) :
  at_index (outs tx) i = Some o ->
  exists tx',
    settleFee calculateFee i tx = inr tx'
    /\ ins tx' = ins tx
    /\ length (outs tx') = length (outs tx)
    /\ at_index (outs tx') i = Some (mkTxOut (out_address o) calculateFee)
    /\ forall j, j <> i -> at_index (outs tx') j = at_index (outs tx) j.
Proof.
  unfold at_index, settleFee, setOutValue.
  destruct (Z.ltb_spec i 0) as [Hneg | Hpos]; [discriminate | ].
  intro Hn.
  assert (Hlt : (Z.to_nat i < length (outs tx))%nat)
    by (apply nth_error_Some; congruence).
  destruct (Z.geb_spec i (Z.of_nat (length (outs tx)))); [lia | ].
  destruct (set_value_Some _ _ calculateFee _ Hn) as (os' & Hs & Hl & Hv & Ho).
  rewrite Hs. eexists; repeat split; simpl; auto.
  intros j Hj. destruct (Z.ltb_spec j 0); auto.
  apply Ho. intro E. apply Hj. apply Z2Nat.inj; auto.
Qed.

Lemma buildTransaction_shape (w : World) (h : string) (i : Z) (to : string) (a : float) :
  buildTransaction w h i to a
  = mkTransaction [mkTxIn h i] [mkTxOut to (convertToSatoshi w a)].
Proof. reflexivity. Qed.

(** On the transaction [send] builds, the settlement goes through for
    index 0 alone. *)
Lemma settleFee_built (w : World) (h : string) (i : Z) (to : string) (a : float)
      (fee : Z) (settled : Transaction) :
  settleFee fee i (buildTransaction w h i to a) = inr settled ->
  i = 0 /\ settled = mkTransaction [mkTxIn h 0] [mkTxOut to fee].
Proof.
  rewrite buildTransaction_shape. unfold settleFee, setOutValue; simpl.
  destruct (Z.geb_spec i 1); [discriminate | ].
  destruct (Z.ltb_spec i 0); [discriminate | ].
  assert (i = 0) by lia; subst. simpl.
  intro Hs; inversion Hs; auto.
Qed.

Lemma settleFee_built_guard (w : World) (h : string) (i : Z) (to : string) (a : float)
      (fee : Z) :
  1 <= i ->
  settleFee fee i (buildTransaction w h i to a) = inl (OutputDoesNotExist i).
Proof.
  intro Hi. rewrite buildTransaction_shape. unfold settleFee; simpl.
  destruct (Z.geb_spec i 1); [reflexivity | lia].
Qed.

(** *** Runs *)

Lemma broadcast_app (t1 t2 : list NetCall) :
  broadcast (t1 ++ t2) = broadcast t1 || broadcast t2.
Proof. apply existsb_app. Qed.

Lemma broadcast_In (t : list NetCall) :
  broadcast t = true <-> exists hex, In (PostPushTransaction hex) t.
Proof.
  unfold broadcast. rewrite existsb_exists. split.
  - intros ([ | | | hex] & Hin & Hp); try discriminate. eauto.
  - intros (hex & Hin). eauto.
Qed.

Lemma feeRequests_quiet (dto : SendBtcDto) : broadcast (feeRequests dto) = false.
Proof.
  unfold feeRequests. destruct (fee dto) as [f | ]; [destruct (f =? 0)%Z | ]; reflexivity.
Qed.

Lemma feePerByte_run (w : World) (dto : SendBtcDto) (t : list NetCall) :
  feePerByte w dto t
  = (match feeRate w dto with inl e => inl (Rethrown e) | inr f => inr f end,
     (t ++ feeRequests dto)%list).
Proof.
  unfold feePerByte, feeRate, feeRequests, calculateAverageFee,
    tryCatch, rethrow, request, throw, ret.
  destruct (fee dto) as [f | ]; [destruct (f =? 0)%Z | ];
    try destruct (fees_recommended w); now rewrite ?app_nil_r.
Qed.

Ltac run :=
  unfold send, prepare, pushTransaction,
    getPreviousTransactionHashAndOutputIndex, balance, outcome, requests;
  unfold tryCatch, rethrow, bind, ret, throw, lift, request;
  rewrite ?feePerByte_run.

(** What a successful [prepare] went through. *)
Lemma prepare_inr (w : World) (dto : SendBtcDto) (t t' : list NetCall)
      (address hex : string) :
  prepare w dto t = (inr (address, hex), t') ->
  exists f h i txs bal,
    resolves w dto address f
    /\ addrs_full w address = inr txs
    /\ selectPreviousOutput address txs = inr (h, i)
    /\ (exists settled,
           settleFee (f * byteLength w (buildTransaction w h i (to_address dto) (amount dto)))
                     i (buildTransaction w h i (to_address dto) (amount dto))
           = inr settled
           /\ toHex w settled = inr hex
           /\ PrimFloat.ltb (convertFromSatoshi bal)
                   (totalPay f (f * byteLength w (buildTransaction w h i (to_address dto) (amount dto)))
                             settled (amount dto)) = false)
    /\ validate w address = true
    /\ dashboards_address w address = inr (Some bal)
    /\ t' = (t ++ feeRequests dto ++ [GetAddrsFull address; GetDashboardsAddress address])%list.
Proof.
  unfold resolves. run.
  destruct (getAddressFromPrivateKey w (private_key dto)) as [e | a] eqn:Ha;
    [discriminate | ].
  destruct (feeRate w dto) as [e | f] eqn:Hf; [discriminate | ].
  destruct (validate w (to_address dto)) eqn:Hv; simpl; [ | discriminate].
  destruct (addrs_full w a) as [e | txs] eqn:Htxs; [discriminate | ].
  destruct (selectPreviousOutput a txs) as [e | [h i]] eqn:Hsel; [discriminate | ].
  destruct (settleFee _ i _) as [e | settled] eqn:Hset; [discriminate | ].
  destruct (toHex w settled) as [e | hx] eqn:Hhex; [discriminate | ].
  destruct (validate w a) eqn:Hva; simpl; [ | discriminate].
  destruct (dashboards_address w a) as [e | [bal | ]] eqn:Hbal; try discriminate.
  simpl. destruct (PrimFloat.ltb _ _) eqn:Hlt; [discriminate | ].
  intro H; inversion H; subst.
  exists f, h, i, txs, bal. repeat split; auto.
  - exists settled. auto.
  - now rewrite <- !app_assoc.
Qed.

(** [prepare] sends no transaction. *)
Lemma prepare_quiet (w : World) (dto : SendBtcDto) (t : list NetCall) :
  broadcast (snd (prepare w dto t)) = broadcast t.
Proof.
  run.
  destruct (getAddressFromPrivateKey w (private_key dto)) as [e | a]; [reflexivity | ].
  assert (Q1 : broadcast (t ++ feeRequests dto) = broadcast t)
    by (rewrite broadcast_app, feeRequests_quiet; apply orb_false_r).
  assert (Q2 : forall c, isPush c = false ->
                         broadcast ((t ++ feeRequests dto) ++ [c]) = broadcast t)
    by (intros c Hc; rewrite broadcast_app, Q1; simpl; rewrite Hc; now rewrite !orb_false_r).
  assert (Q3 : forall c d, isPush c = false -> isPush d = false ->
                 broadcast (((t ++ feeRequests dto) ++ [c]) ++ [d]) = broadcast t)
    by (intros c d Hc Hd; rewrite broadcast_app, Q2 by assumption; simpl;
        rewrite Hd; now rewrite !orb_false_r).
  destruct (feeRate w dto) as [e | f]; [exact Q1 | ].
  destruct (validate w (to_address dto)); simpl; [ | exact Q1].
  destruct (addrs_full w a) as [e | txs]; [now apply Q2 | ].
  destruct (selectPreviousOutput a txs) as [e | [h i]]; [now apply Q2 | ].
  destruct (settleFee _ i _) as [e | settled]; [now apply Q2 | ].
  destruct (toHex w settled) as [e | hx]; [now apply Q2 | ].
  destruct (validate w a); simpl; [ | now apply Q2].
  destruct (dashboards_address w a) as [e | [bal | ]]; try now apply Q3.
  simpl. destruct (PrimFloat.ltb _ _); now apply Q3.
Qed.

(** The one request of [pushTransaction]. *)
Lemma pushTransaction_requests (w : World) (address : string) (dto : SendBtcDto)
      (hex : string) (t : list NetCall) :
  snd (pushTransaction w address dto hex t) = (t ++ [PostPushTransaction hex])%list.
Proof.
  unfold pushTransaction, bind, request, ret, throw.
  destruct (push_transaction w hex); [ | destruct (_ =? _)%string | ]; reflexivity.
Qed.

(** [send] broadcasts exactly when [prepare] succeeds, and then the
    transaction [prepare] serialized. *)
Lemma send_push (w : World) (dto : SendBtcDto) (hex : string) :
  In (PostPushTransaction hex) (requests (send w dto)) <->
  exists address, outcome (prepare w dto) = inr (address, hex).
Proof.
  pose proof (prepare_quiet w dto []) as Hq.
  unfold send, outcome, requests, bind.
  destruct (prepare w dto []) as [[e | [a hx]] t] eqn:Hp; simpl in *.
  - split.
    + intro Hin. assert (broadcast t = true) by (apply broadcast_In; eauto).
      congruence.
    + intros (address & H). discriminate.
  - rewrite pushTransaction_requests. split.
    + intro Hin. exists a. apply in_app_or in Hin.
      destruct Hin as [Hin | [Hin | []]].
      * assert (broadcast t = true) by (apply broadcast_In; eauto). congruence.
      * now inversion Hin.
    + intros (address & H). inversion H; subst.
      apply in_or_app; right; left; reflexivity.
Qed.


(** When the resolution of the prior output fails, so does [send], with
    that failure, and nothing is broadcast. *)
Lemma send_resolution_fails (w : World) (dto : SendBtcDto) (address : string) (f : Z)
      (txs : list Tx) (e : Exception) :
  resolves w dto address f ->
  addrs_full w address = inr txs ->
  selectPreviousOutput address txs = inl e ->
  outcome (send w dto) = inl (Rethrown (Rethrown e))
  /\ requests (send w dto) = (feeRequests dto ++ [GetAddrsFull address])%list.
Proof.
  intros (Ha & Hf & Hv) Htxs Hsel.
  run. rewrite Ha, Hf, Hv. simpl. rewrite Htxs, Hsel. simpl. auto.
Qed.

Lemma getPrevious_run (w : World) (address : string) (amount : float) (t : list NetCall) :
  getPreviousTransactionHashAndOutputIndex w address amount t
  = (match addrs_full w address with
     | inl e => inl (Rethrown e)
     | inr txs =>
         match selectPreviousOutput address txs with
         | inl e => inl (Rethrown e)
         | inr r => inr r
         end
     end, (t ++ [GetAddrsFull address])%list).
Proof.
  run. destruct (addrs_full w address) as [e | txs]; [reflexivity | ].
  now destruct (selectPreviousOutput address txs).
Qed.

(** Of a history whose last transaction pays the address, that
    transaction is also the last of those that pay it. *)
Lemma filter_pays_last (address : string) (txs : list Tx) (tx : Tx) :
  selectedTransaction txs = Some tx ->
  pays address tx = true ->
  exists rest, rev (filter (pays address) txs) = tx :: rest.
Proof.
  destruct txs as [ | tx0 txs0]; [discriminate | ].
  intros H Hp.
  assert (Hl : last (tx0 :: txs0) tx0 = tx) by (now inversion H).
  clear H.
  assert (Hne : tx0 :: txs0 <> []) by discriminate.
  rewrite (app_removelast_last tx0 Hne), Hl.
  rewrite filter_app.
  change (filter (pays address) [tx]) with (if pays address tx then [tx] else []).
  rewrite Hp, rev_app_distr. simpl. eauto.
Qed.

(** *** The statements of the specification *)

(** C1.  In the UTXO send, the fee [feePerByte * byteLength] is settled by
    replacing the value of the output whose index is that of the
    consumed input, every other output and the inputs staying as they
    were; and whatever [send] broadcasts is the serialization of the
    one-input/one-output transaction it built for input index 0, whose
    single output, first valued at the amount in satoshi, now carries
    exactly that fee. *)
Theorem send_fee_overwrites_output :
  (forall (calculateFee i : Z) (tx : Transaction) (o : TxOut),
      at_index (outs tx) i = Some o ->
      exists tx',
        settleFee calculateFee i tx = inr tx'
        /\ ins tx' = ins tx
        /\ length (outs tx') = length (outs tx)
        /\ at_index (outs tx') i = Some (mkTxOut (out_address o) calculateFee)
        /\ forall j, j <> i -> at_index (outs tx') j = at_index (outs tx) j)
  /\ (forall (w : World) (dto : SendBtcDto) (hex : string),
         In (PostPushTransaction hex) (requests (send w dto)) ->
         exists f h settled,
           let built := buildTransaction w h 0 (to_address dto) (amount dto) in
           feeRate w dto = inr f
           /\ ins built = [mkTxIn h 0]
           /\ outs built = [mkTxOut (to_address dto) (convertToSatoshi w (amount dto))]
           /\ settleFee (f * byteLength w built) 0 built = inr settled
           /\ ins settled = [mkTxIn h 0]
           /\ outs settled = [mkTxOut (to_address dto) (f * byteLength w built)]
           /\ toHex w settled = inr hex).
Proof.
  split.
  - exact settleFee_overwrites.
  - intros w dto hex Hin.
    apply send_push in Hin. destruct Hin as (address & Hp).
    unfold outcome in Hp.
    destruct (prepare w dto []) as [r t'] eqn:Hrun. simpl in Hp. subst r.
    apply prepare_inr in Hrun.
    destruct Hrun as (f & h & i & txs & bal & (Ha & Hf & Hv) & Htxs & Hsel
                      & (settled & Hset & Hhex & Hlt) & _).
    destruct (settleFee_built _ _ _ _ _ _ _ Hset) as (Hi & Hs). subst i.
    exists f, h, settled. simpl. rewrite Hset, Hs. simpl. repeat split; auto.
    now rewrite <- Hs.
Qed.

Lemma send_fee_overwrites_output_witness :
  In (PostPushTransaction (Sample.destination ++ ":1910"))
     (requests (send (Sample.world [Sample.funding] 250000 (PushAccepted "aa"))
                     (Sample.order Sample.destination (Some 10))))
  /\ exists f h settled,
      feeRate (Sample.world [Sample.funding] 250000 (PushAccepted "aa"))
              (Sample.order Sample.destination (Some 10)) = inr f
      /\ ins settled = [mkTxIn h 0]
      /\ outs settled = [mkTxOut Sample.destination (f * 191)]
      /\ toHex (Sample.world [Sample.funding] 250000 (PushAccepted "aa")) settled
         = inr (Sample.destination ++ ":1910").
Proof.
  assert (Hin : In (PostPushTransaction (Sample.destination ++ ":1910"))
     (requests (send (Sample.world [Sample.funding] 250000 (PushAccepted "aa"))
                     (Sample.order Sample.destination (Some 10)))))
    by (vm_compute; auto).
  split; [exact Hin | ].
  destruct (proj2 send_fee_overwrites_output _ _ _ Hin)
    as (f & h & settled & Hf & _ & _ & _ & Hi & Ho & Hhex).
  exists f, h, settled. auto.
Defined.





(** The sum is one of numbers: at 1 satoshi per byte and a balance of
    100192 satoshi, which is the amount, the fee and the one more
    satoshi together, the sum comes out above the balance in the last
    place and the request is refused; with one satoshi more it goes
    through. *)
Lemma send_total_is_rounded :
  Num.Number_text (convertFromSatoshi 100192) = "0.00100192"
  /\ Num.Number_text (PrimFloat.add (convertFromSatoshi (1 * 191 + 1 * 1)) Sample.amount_sent)
     = "0.0010019200000000001"
  /\ outcome (send (Sample.world [Sample.funding] 100192 (PushAccepted "aa"))
                   (Sample.order Sample.destination (Some 1)))
     = inl (Rethrown InsufficientBalance)
  /\ broadcast (requests (send (Sample.world [Sample.funding] 100193 (PushAccepted "aa"))
                               (Sample.order Sample.destination (Some 1))))
     = true.
Proof. vm_compute. auto. Qed.

(** C3.  When the push endpoint rejects the transaction [send] has
    prepared, the rejection text "Invalid transaction. Error:
    txn-mempool-conflict" yields the result with [status] false and the
    message about an incomplete transaction, and every other text
    yields the result with [status] false and that text as its
    message. *)
Theorem send_rejection_outcome (w : World) (dto : SendBtcDto) (address hex : string)
        (errorMessage : string) :
  outcome (prepare w dto) = inr (address, hex) ->
  push_transaction w hex = PushRejected errorMessage ->
  In (PostPushTransaction hex) (requests (send w dto))
  /\ (errorMessage = "Invalid transaction. Error: txn-mempool-conflict" ->
      outcome (send w dto)
      = inr (Refused false
               "You have an incomplete transaction. Wait until the previous transaction is completed"))
  /\ (errorMessage <> "Invalid transaction. Error: txn-mempool-conflict" ->
      outcome (send w dto) = inr (Refused false errorMessage)).
Proof.
  intros Hp Hpush. split.
  - apply send_push. eauto.
  - unfold outcome in *. unfold send, bind.
    destruct (prepare w dto []) as [r t]. simpl in Hp. subst r.
    unfold pushTransaction, bind, request, ret. rewrite Hpush.
    destruct (String.eqb_spec errorMessage
                "Invalid transaction. Error: txn-mempool-conflict") as [E | E];
      simpl; split; intro H; congruence.
Qed.

Lemma sample_prepared (push : PushResponse) :
  outcome (prepare (Sample.world [Sample.funding] 250000 push)
                   (Sample.order Sample.destination (Some 10)))
  = inr (Sample.source, Sample.destination ++ ":1910").
Proof. vm_compute. reflexivity. Qed.

Lemma send_rejection_outcome_witness :
  outcome (send (Sample.world [Sample.funding] 250000
                   (PushRejected "Invalid transaction. Error: txn-mempool-conflict"))
                (Sample.order Sample.destination (Some 10)))
  = inr (Refused false
           "You have an incomplete transaction. Wait until the previous transaction is completed")
  /\ outcome (send (Sample.world [Sample.funding] 250000
                      (PushRejected "Missing inputs"))
                   (Sample.order Sample.destination (Some 10)))
     = inr (Refused false "Missing inputs").
Proof.
  split.
  - apply (proj1 (proj2 (send_rejection_outcome _ _ _ _ _
                           (sample_prepared _) eq_refl))).
    reflexivity.
  - apply (proj2 (proj2 (send_rejection_outcome _ _ _ _ _
                           (sample_prepared (PushRejected "Missing inputs")) eq_refl))).
    discriminate.
Defined.

(** C4, as the code has it.  The resolution fetches the history of the
    source address and looks at its last transaction only, whether or
    not that transaction pays the address.  When an output of that
    transaction lists the address, and every output before the first
    such one lists its addresses, the reference returned is the hash
    of that transaction together with the index of that first output;
    in that case this is also what the specification's wording
    selects.  When every output of that transaction lists its
    addresses and none lists the address, the resolution fails with
    "Previous output not found", whatever the earlier transactions
    pay. *)
Theorem resolution_selects_last (w : World) (address : string) (amount : float)
        (txs : list Tx) (tx : Tx) (t : list NetCall) :
  addrs_full w address = inr txs ->
  selectedTransaction txs = Some tx ->
  (forall n o,
      nth_error (outputs tx) n = Some o ->
      belongsTo address o = true ->
      (forall j o', (j < n)%nat -> nth_error (outputs tx) j = Some o' ->
                    belongsTo address o' = false /\ listed o' = true) ->
      getPreviousTransactionHashAndOutputIndex w address amount t
      = (inr (hash tx, Z.of_nat n), (t ++ [GetAddrsFull address])%list)
      /\ spec_selectPreviousOutput address txs = Some (hash tx, Z.of_nat n))
  /\ (pays address tx = false ->
      forallb listed (outputs tx) = true ->
      getPreviousTransactionHashAndOutputIndex w address amount t
      = (inl (Rethrown NoMatchingOutput), (t ++ [GetAddrsFull address])%list)).
Proof.
  intros Htxs Hsel.
  rewrite getPrevious_run, Htxs, selectPreviousOutput_selected, Hsel.
  split.
  - intros n o Ho Hb Hfirst.
    pose proof (scan_matched address (outputs tx) n o Ho Hb Hfirst) as Hscan.
    rewrite Hscan. split; [reflexivity | ].
    assert (Hpays : pays address tx = true).
    { unfold pays. apply existsb_exists. exists o. split; auto.
      eapply nth_error_In; eauto. }
    unfold spec_selectPreviousOutput.
    destruct (filter_pays_last address txs tx Hsel Hpays) as (rest & Hr).
    now rewrite Hr, (scan_first _ _ _ Hscan).
  - intros Hp Hl.
    assert (Hscan : scan address (outputs tx) = inr None)
      by (apply scan_unmatched; auto).
    now rewrite Hscan.
Qed.

Lemma resolution_selects_last_witness :
  getPreviousTransactionHashAndOutputIndex
    (Sample.world [Sample.funding; Sample.change] 0 (PushAccepted "aa"))
    Sample.source Sample.amount_sent []
  = (inr ("c4a2", 1), [GetAddrsFull Sample.source])
  /\ spec_selectPreviousOutput Sample.source [Sample.funding; Sample.change]
     = Some ("c4a2", 1).
Proof.
  apply (proj1 (resolution_selects_last
                  (Sample.world [Sample.funding; Sample.change] 0 (PushAccepted "aa"))
                  Sample.source Sample.amount_sent
                  [Sample.funding; Sample.change] Sample.change []
                  eq_refl eq_refl)
           1%nat (Sample.paysTo Sample.source 90000) eq_refl eq_refl).
  intros [ | j] o' Hj Ho'; [ | lia].
  inversion Ho'; subst. split; reflexivity.
Defined.

(** C4, as the specification has it, fails: of a history whose earlier
    transaction pays the source address and whose last one does not,
    the wording selects the earlier transaction and its output 0,
    while the code looks at the last one and fails. *)
Lemma resolution_ignores_earlier_transactions :
  spec_selectPreviousOutput Sample.source [Sample.funding; Sample.spending]
  = Some ("f0e1", 0)
  /\ selectPreviousOutput Sample.source [Sample.funding; Sample.spending]
     = inl NoMatchingOutput.
Proof. split; reflexivity. Qed.

(** C5, and where the code departs from it.  Once the history is
    fetched, the resolution fails with "No previous transactions
    found" exactly when the history is empty.  It fails with "Previous
    output not found" exactly when the transaction it selects has no
    output that lists the source address and every output of it lists
    its addresses: when none lists the source address and one has
    [null] for its addresses, the failure is the [TypeError] of
    reading [includes] off [null] instead.  A [send] that comes to any
    failure of the resolution fails with it and broadcasts nothing. *)
Theorem resolution_failures (w : World) (address : string) (amount : float)
        (txs : list Tx) :
  addrs_full w address = inr txs ->
  (outcome (getPreviousTransactionHashAndOutputIndex w address amount)
   = inl (Rethrown NoPriorTransactions) <-> txs = [])
  /\ (outcome (getPreviousTransactionHashAndOutputIndex w address amount)
      = inl (Rethrown NoMatchingOutput)
      <-> exists tx, selectedTransaction txs = Some tx
                     /\ pays address tx = false
                     /\ forallb listed (outputs tx) = true)
  /\ (forall tx,
         selectedTransaction txs = Some tx ->
         pays address tx = false ->
         forallb listed (outputs tx) = false ->
         outcome (getPreviousTransactionHashAndOutputIndex w address amount)
         = inl (Rethrown NullAddresses))
  /\ (forall dto f e,
         resolves w dto address f ->
         outcome (getPreviousTransactionHashAndOutputIndex w address amount)
         = inl (Rethrown e) ->
         outcome (send w dto) = inl (Rethrown (Rethrown e))
         /\ broadcast (requests (send w dto)) = false).
Proof.
  intro Htxs. unfold outcome.
  rewrite getPrevious_run, Htxs, selectPreviousOutput_selected. simpl.
  assert (Hsend : forall dto f e,
             resolves w dto address f ->
             match selectedTransaction txs with
             | None => inl NoPriorTransactions
             | Some tx =>
                 match scan address (outputs tx) with
                 | inl e0 => inl e0
                 | inr None => inl NoMatchingOutput
                 | inr (Some n) => inr (hash tx, Z.of_nat n)
                 end
             end = inl e ->
             fst (send w dto []) = inl (Rethrown (Rethrown e))
             /\ broadcast (snd (send w dto [])) = false).
  { intros dto f e Hres Hsel.
    rewrite <- selectPreviousOutput_selected in Hsel.
    destruct (send_resolution_fails w dto address f txs e Hres Htxs Hsel) as [Ho Hr].
    unfold outcome, requests in *. split; [exact Ho | ].
    rewrite Hr, broadcast_app, feeRequests_quiet. reflexivity. }
  split; [ | split; [ | split]].
  - split.
    + destruct txs as [ | tx0 txs0]; [reflexivity | ]. simpl.
      destruct (scan address _) as [e | [n | ]] eqn:Hscan; try discriminate.
      apply scan_unlisted in Hscan. destruct Hscan as [-> _]. discriminate.
    + intros ->. reflexivity.
  - split.
    + destruct (selectedTransaction txs) as [tx | ]; [ | discriminate].
      destruct (scan address (outputs tx)) as [e | [n | ]] eqn:Hscan;
        try discriminate.
      * apply scan_unlisted in Hscan. destruct Hscan as [-> _]. discriminate.
      * intros _. exists tx. apply scan_unmatched in Hscan. tauto.
    + intros (tx & -> & Hp & Hl).
      assert (Hscan : scan address (outputs tx) = inr None)
        by (apply scan_unmatched; auto).
      now rewrite Hscan.
  - intros tx -> Hp Hl.
    destruct (scan address (outputs tx)) as [e | [n | ]] eqn:Hscan.
    + apply scan_unlisted in Hscan. now destruct Hscan as [-> _].
    + apply scan_first in Hscan.
      apply firstIndex_None in Hp. congruence.
    + apply scan_unmatched in Hscan. destruct Hscan as [_ Hall]. congruence.
  - intros dto f e Hres Hout. apply (Hsend dto f e Hres).
    destruct (selectedTransaction txs) as [tx | ];
      [destruct (scan address (outputs tx)) as [e0 | [n | ]] | ];
      simpl in Hout; congruence.
Qed.

Lemma resolution_failures_witness :
  pays Sample.source Sample.notarized = false
  /\ outcome (getPreviousTransactionHashAndOutputIndex
                (Sample.world [Sample.funding; Sample.notarized] 250000 (PushAccepted "aa"))
                Sample.source Sample.amount_sent)
     = inl (Rethrown NullAddresses)
  /\ outcome (send (Sample.world [Sample.funding; Sample.notarized] 250000
                                 (PushAccepted "aa"))
                   (Sample.order Sample.destination None))
     = inl (Rethrown (Rethrown NullAddresses))
  /\ broadcast (requests (send (Sample.world [Sample.funding; Sample.notarized] 250000
                                             (PushAccepted "aa"))
                               (Sample.order Sample.destination None))) = false.
Proof.
  destruct (resolution_failures
              (Sample.world [Sample.funding; Sample.notarized] 250000 (PushAccepted "aa"))
              Sample.source Sample.amount_sent
              [Sample.funding; Sample.notarized] eq_refl)
    as (_ & _ & Hnull & Hsend).
  pose proof (Hnull Sample.notarized eq_refl eq_refl eq_refl) as Hout.
  split; [reflexivity | split; [exact Hout | ]].
  apply (Hsend (Sample.order Sample.destination None) 20 NullAddresses).
  - repeat split.
  - exact Hout.
Defined.

(** C9.  The transaction [send] builds has exactly one output.  So a
    resolved prior-output index of 1 or more makes the guard fire:
    [send] fails with "Output with index i does not exist." and
    broadcasts nothing; a [send] that broadcasts has resolved index 0;
    and past the guard the write to [outs[i].value] finds its output,
    the resolved index being never negative. *)
Theorem send_guard_confines_index :
  (forall w h i to a, length (outs (buildTransaction w h i to a)) = 1%nat)
  /\ (forall w dto address f txs h i,
         resolves w dto address f ->
         addrs_full w address = inr txs ->
         selectPreviousOutput address txs = inr (h, i) ->
         1 <= i ->
         outcome (send w dto) = inl (Rethrown (OutputDoesNotExist i))
         /\ broadcast (requests (send w dto)) = false)
  /\ (forall w dto,
         broadcast (requests (send w dto)) = true ->
         exists address txs h,
           addrs_full w address = inr txs
           /\ selectPreviousOutput address txs = inr (h, 0))
  /\ (forall address txs h i tx v,
         selectPreviousOutput address txs = inr (h, i) ->
         (i >=? Z.of_nat (length (outs tx))) = false ->
         exists tx', setOutValue tx i v = inr tx').
Proof.
  split; [ | split; [ | split]].
  - reflexivity.
  - intros w dto address f txs h i (Ha & Hf & Hv) Htxs Hsel Hi.
    run. rewrite Ha, Hf, Hv. simpl. rewrite Htxs, Hsel.
    rewrite settleFee_built_guard by assumption. simpl. split; auto.
    rewrite !broadcast_app, feeRequests_quiet. reflexivity.
  - intros w dto Hb. apply broadcast_In in Hb. destruct Hb as (hex & Hin).
    apply send_push in Hin. destruct Hin as (address & Hp).
    unfold outcome in Hp.
    destruct (prepare w dto []) as [r t'] eqn:Hrun. simpl in Hp. subst r.
    apply prepare_inr in Hrun.
    destruct Hrun as (f & h & i & txs & bal & _ & Htxs & Hsel
                      & (settled & Hset & _) & _).
    destruct (settleFee_built _ _ _ _ _ _ _ Hset) as (Hi & _). subst i.
    exists address, txs, h. auto.
  - intros address txs h i tx v Hsel Hg.
    apply setOutValue_in_range; auto.
    eapply selectPreviousOutput_index; eauto.
Qed.

Lemma send_guard_confines_index_witness :
  outcome (send (Sample.world [Sample.funding; Sample.change] 250000 (PushAccepted "aa"))
                (Sample.order Sample.destination (Some 10)))
  = inl (Rethrown (OutputDoesNotExist 1))
  /\ broadcast (requests (send (Sample.world [Sample.funding; Sample.change] 250000
                                             (PushAccepted "aa"))
                               (Sample.order Sample.destination (Some 10)))) = false.
Proof.
  apply (proj1 (proj2 send_guard_confines_index)
           (Sample.world [Sample.funding; Sample.change] 250000 (PushAccepted "aa"))
           (Sample.order Sample.destination (Some 10))
           Sample.source 10 [Sample.funding; Sample.change] "c4a2" 1).
  - repeat split.
  - reflexivity.
  - reflexivity.
  - lia.
Defined.

(** With a fee in the request, a malformed destination is rejected
    before any request is sent. *)
Lemma send_invalid_destination_with_fee (w : World) (dto : SendBtcDto)
      (address : string) (f : Z) :
  getAddressFromPrivateKey w (private_key dto) = inr address ->
  fee dto = Some f -> f <> 0 ->
  validate w (to_address dto) = false ->
  outcome (send w dto) = inl (Rethrown InvalidAddress)
  /\ requests (send w dto) = [].
Proof.
  intros Ha Hf Hnz Hv. run. unfold feeRate, feeRequests.
  rewrite Ha, Hf. destruct (Z.eqb_spec f 0); [contradiction | ].
  simpl. rewrite Hv. simpl. auto.
Qed.

(** Without one, the fee estimator is asked first. *)
Lemma send_invalid_destination_without_fee (w : World) (dto : SendBtcDto)
      (address : string) :
  getAddressFromPrivateKey w (private_key dto) = inr address ->
  fee dto = None ->
  validate w (to_address dto) = false ->
  requests (send w dto) = [GetFeesRecommended]
  /\ outcome (send w dto)
     = match fees_recommended w with
       | inl e => inl (Rethrown (Rethrown e))
       | inr _ => inl (Rethrown InvalidAddress)
       end.
Proof.
  intros Ha Hf Hv. run. unfold feeRate, feeRequests.
  rewrite Ha, Hf. destruct (fees_recommended w); simpl; rewrite ?Hv; simpl; auto.
Qed.

(** C6, at the input where the code departs from it: a request without
    a fee and with a malformed destination is rejected for its
    destination only after the fee estimator has been asked. *)
Theorem send_asks_estimator_before_validating :
  validate (Sample.world [Sample.funding] 250000 (PushAccepted "aa")) "not-an-address"
  = false
  /\ outcome (send (Sample.world [Sample.funding] 250000 (PushAccepted "aa"))
                   (Sample.order "not-an-address" None))
     = inl (Rethrown InvalidAddress)
  /\ requests (send (Sample.world [Sample.funding] 250000 (PushAccepted "aa"))
                    (Sample.order "not-an-address" None))
     = [GetFeesRecommended].
Proof. repeat split. Qed.

End BtcFacts.

(** ** Properties of the account-model engine *)

Module Web3Facts.

Import Web3.

Ltac run :=
  unfold send, balance, calculateEstimateGasFees, getContractDecimal, balanceCall,
    outcome, requests;
  unfold tryCatch, rethrow, bind, ret, throw, lift, request.

(** The account-model [send] rejects a malformed destination before any
    request is sent. *)
Lemma send_invalid_recipient (n : Node) (chainId : string) (dto : SendWeb3Dto)
      (address : string) :
  getAddressByPrivateKey n (private_key dto) = inr address ->
  isAddress n (to_address dto) = false ->
  outcome (send n chainId dto)
  = inl (Rethrown (HttpException "Incorrect recipient address" BAD_REQUEST))
  /\ requests (send n chainId dto) = [].
Proof.
  intros Ha Hv. run. rewrite Ha, Hv. auto.
Qed.

(** [NaN] times any number is [NaN], whose text is "NaN". *)
Lemma Number_mul_absent (price : Z) :
  Num.Number_text (Number_mul None price) = "NaN".
Proof.
  unfold Number_mul, Number_of_limit, Num.Number_text.
  rewrite mul_spec.
  replace (Prim2SF PrimFloat.nan) with S754_nan by reflexivity.
  reflexivity.
Qed.

(** What [calculateEstimateGasFees] does, case by case. *)
Lemma calculateEstimateGasFees_run (n : Node) (amount address : string)
      (dto : SendWeb3Dto) (t : list RpcCall) :
  calculateEstimateGasFees n amount address dto t
  = match eth_getGasPrice n with
    | inl e => (inl e, t ++ [EthGetGasPrice])%list
    | inr price =>
        let quote limit :=
          match utils_fromWei n (Num.Number_text (Number_mul (gas_limit dto) price)) with
          | inl e => inl e
          | inr fees => inr (mkGasFees amount "ok" limit price fees)
          end in
        let call := EstimateGasTransfer (contract_text (contract dto)) (to_address dto)
                                        amount address in
        if positive_limit (gas_limit dto)
        then (quote (Web3Spec.coinGas (gas_limit dto)), t ++ [EthGetGasPrice])%list
        else
          match estimateGas_transfer n (contract_text (contract dto)) (to_address dto)
                                     amount address with
          | inl e => (inl e, t ++ [EthGetGasPrice; call])%list
          | inr estimate =>
              (quote (parseInt_of_half estimate + estimate),
               t ++ [EthGetGasPrice; call])%list
          end
    end.
Proof.
  run. destruct (eth_getGasPrice n) as [e | price]; [reflexivity | ].
  unfold positive_limit, Web3Spec.coinGas.
  destruct (gas_limit dto) as [g | ]; [destruct (0 <? g)%Z | ]; simpl;
    try (destruct (utils_fromWei n _); reflexivity);
    destruct (estimateGas_transfer n _ _ _ _); rewrite <- ?app_assoc; simpl;
      try reflexivity; destruct (utils_fromWei n _); reflexivity.
Qed.

(** C7, at an input where the code departs from it.  For 1.1 tokens of
    a token with 18 decimals the product [amount * Math.pow(10, 18)] is
    the number 1100000000000000128, not 1100000000000000000, and the
    text put into the call data is "1100000000000000100", not
    "1100000000000000000"; the transaction handed to [signTransaction]
    carries the inexact amount.  For 1.5 tokens and 6 decimals the
    text is "1500000". *)
Theorem tokenAmount_inexact :
  Prim2SF Sample.one_point_one
  = Prim2SF (PrimFloat.div (Num.Number_of_Z 11) (Num.Number_of_Z 10))
  /\ Prim2SF (PrimFloat.mul Sample.one_point_one (Math_pow10 (Sample.node 18 60000) 18))
     = Prim2SF (Num.Number_of_Z 1100000000000000128)
  /\ (tokenAmount (Sample.node 18 60000) Sample.one_point_one 18
      =? "1100000000000000000")%string = false
  /\ tokenAmount (Sample.node 18 60000) Sample.one_point_one 18 = "1100000000000000100"
  /\ In (SignTransaction
           (Some (TokenTransfer "0x52908400098527886E0F7030069857D2E4169EE7"
                                Sample.token 100000
                                (Sample.holder ++ ":"
                                   ++ tokenAmount (Sample.node 18 60000)
                                                  Sample.one_point_one 18))))
        (requests (send (Sample.node 18 60000) "56"
                        (Sample.transfer Sample.one_point_one (Some 100000))))
  /\ tokenAmount (Sample.node 6 60000) Sample.one_and_a_half 6 = "1500000".
Proof.
  repeat split; try (vm_compute; reflexivity).
  vm_compute. auto 10.
Qed.

(** C8, and where the code departs from it.  With a gas limit in the
    request that is not above 0, the limit is the estimate of a dry-run
    transfer plus half of it, rounded down; the gas price is asked
    first, the estimate second.  Without a gas limit in the request
    the same two are asked, but no limit comes out: the fee quote is
    then computed from [NaN], and when [fromWei] rejects the text
    "NaN" the calculation fails with what [fromWei] threw. *)
Theorem gas_limit_default (n : Node) (amount address : string) (dto : SendWeb3Dto)
        (price estimate : Z) (t : list RpcCall) :
  positive_limit (gas_limit dto) = false ->
  eth_getGasPrice n = inr price ->
  estimateGas_transfer n (contract_text (contract dto)) (to_address dto) amount address
  = inr estimate ->
  0 <= estimate ->
  (forall g fees,
      gas_limit dto = Some g ->
      utils_fromWei n (Num.Number_text (Number_mul (Some g) price)) = inr fees ->
      calculateEstimateGasFees n amount address dto t
      = (inr (mkGasFees amount "ok" (estimate + estimate / 2) price fees),
         (t ++ [EthGetGasPrice;
                EstimateGasTransfer (contract_text (contract dto)) (to_address dto)
                                    amount address])%list))
  /\ (forall e,
         gas_limit dto = None ->
         utils_fromWei n "NaN" = inl e ->
         calculateEstimateGasFees n amount address dto t
         = (inl e,
            (t ++ [EthGetGasPrice;
                   EstimateGasTransfer (contract_text (contract dto)) (to_address dto)
                                       amount address])%list)).
Proof.
  intros Hg Hp He Hpos.
  assert (Hest : parseInt_of_half estimate + estimate = estimate + estimate / 2).
  { unfold parseInt_of_half. rewrite Z.quot_div_nonneg by lia. lia. }
  rewrite calculateEstimateGasFees_run, Hp, Hg, He. simpl. split.
  - intros g fees Hlimit Hf. now rewrite Hlimit, Hf, Hest.
  - intros e Hlimit Hf. now rewrite Hlimit, Number_mul_absent, Hf.
Qed.

Lemma gas_limit_default_witness :
  calculateEstimateGasFees (Sample.strictNode 6 51234) "1500000"
    "0x52908400098527886E0F7030069857D2E4169EE7"
    (Sample.transfer Sample.one_and_a_half None) []
  = (inl (JsError "invalid number value"),
     [EthGetGasPrice;
      EstimateGasTransfer Sample.token Sample.holder "1500000"
                          "0x52908400098527886E0F7030069857D2E4169EE7"])
  /\ calculateEstimateGasFees (Sample.strictNode 6 51234) "1500000"
       "0x52908400098527886E0F7030069857D2E4169EE7"
       (Sample.transfer Sample.one_and_a_half (Some 0)) []
     = (inr (mkGasFees "1500000" "ok" 76851 5000000000 "0"),
        [EthGetGasPrice;
         EstimateGasTransfer Sample.token Sample.holder "1500000"
                             "0x52908400098527886E0F7030069857D2E4169EE7"]).
Proof.
  split.
  - apply (proj2 (gas_limit_default (Sample.strictNode 6 51234) "1500000"
                    "0x52908400098527886E0F7030069857D2E4169EE7"
                    (Sample.transfer Sample.one_and_a_half None) 5000000000 51234 []
                    eq_refl eq_refl eq_refl ltac:(lia))
             (JsError "invalid number value"));
      reflexivity.
  - apply (proj1 (gas_limit_default (Sample.strictNode 6 51234) "1500000"
                    "0x52908400098527886E0F7030069857D2E4169EE7"
                    (Sample.transfer Sample.one_and_a_half (Some 0)) 5000000000 51234 []
                    eq_refl eq_refl eq_refl ltac:(lia))
             0 "0");
      reflexivity.
Defined.

(** A token transfer whose fee calculation fails fails with it, and
    signs nothing. *)
Lemma send_token_fee_failure (n : Node) (chainId : string) (dto : SendWeb3Dto)
      (address c : string) (decimal : N) (e : Exception) (t t' : list RpcCall) :
  type dto = "token" ->
  getAddressByPrivateKey n (private_key dto) = inr address ->
  isAddress n (to_address dto) = true ->
  contract dto = Some c ->
  isAddress n c = true ->
  call_decimals n c = inr decimal ->
  calculateEstimateGasFees n (tokenAmount n (amount dto) decimal) address dto
                           (t ++ [CallDecimals c])%list
  = (inl e, t') ->
  send n chainId dto t = (inl (Rethrown e), t').
Proof.
  intros Hty Ha Hv Hc Hvc Hd Hfees.
  unfold send, getContractDecimal.
  unfold tryCatch, rethrow, bind, ret, throw, lift, request.
  rewrite Ha, Hv, Hty, Hc. simpl. now rewrite Hvc, Hd, Hfees.
Qed.

(** So a token transfer without a gas limit, on a node whose [fromWei]
    takes the text of an integer only, fails once the price and the
    estimate are in, and nothing is signed or submitted. *)
Lemma send_token_without_limit :
  send (Sample.strictNode 6 51234) "56" (Sample.transfer Sample.one_and_a_half None) []
  = (inl (Rethrown (JsError "invalid number value")),
     [CallDecimals Sample.token; EthGetGasPrice;
      EstimateGasTransfer Sample.token Sample.holder "1500000"
                          "0x52908400098527886E0F7030069857D2E4169EE7"]).
Proof. vm_compute. reflexivity. Qed.

(** C10.  For a valid address and an asset kind that is neither "coin"
    nor "token", [balance] sends no request and returns [status: true]
    with [data] undefined. *)
Theorem balance_of_unknown_kind (n : Node) (dto : BalanceWeb3Dto) (t : list RpcCall) :
  isAddress n (b_address dto) = true ->
  b_type dto <> "coin" ->
  b_type dto <> "token" ->
  balance n dto t = (inr (mkBalanceResult true None), t).
Proof.
  intros Hv Hc Ht. run. rewrite Hv.
  destruct (String.eqb_spec (b_type dto) "coin"); [contradiction | ].
  destruct (String.eqb_spec (b_type dto) "token"); [contradiction | ].
  reflexivity.
Qed.

Lemma balance_of_unknown_kind_witness :
  balance (Sample.node 18 60000) (mkBalanceWeb3Dto Sample.holder "nft" None) []
  = (inr (mkBalanceResult true None), []).
Proof.
  apply (balance_of_unknown_kind (Sample.node 18 60000)
           (mkBalanceWeb3Dto Sample.holder "nft" None) []).
  - reflexivity.
  - discriminate.
  - discriminate.
Defined.

End Web3Facts.

(** ** Further properties of the UTXO engine *)

Module BtcMore.

Import Btc BtcSpec BtcFacts.

(** Whatever fails inside the [try] of [send] is rethrown. *)
Lemma prepare_inl (w : World) (dto : SendBtcDto) (t t' : list NetCall) (e : Exception) :
  prepare w dto t = (inl e, t') -> exists c, e = Rethrown c.
Proof.
  unfold prepare, tryCatch, rethrow, throw.
  match goal with |- context [match ?body t with _ => _ end] => destruct (body t) as [[c | r] t''] end.
  - intro H; inversion H; eauto.
  - discriminate.
Qed.

(** The requests of [prepare] are an initial part of: the estimator if
    it is needed, the history of the source address, its dashboard. *)
Lemma prepare_requests (w : World) (dto : SendBtcDto) (address : string)
      (t : list NetCall) :
  getAddressFromPrivateKey w (private_key dto) = inr address ->
  exists rest,
    (snd (prepare w dto t) ++ rest
     = t ++ feeRequests dto ++ [GetAddrsFull address; GetDashboardsAddress address])%list.
Proof.
  intro Ha. run. rewrite Ha.
  assert (R2 : exists rest,
               ((t ++ feeRequests dto) ++ rest
                = t ++ feeRequests dto
                    ++ [GetAddrsFull address; GetDashboardsAddress address])%list)
    by (exists [GetAddrsFull address; GetDashboardsAddress address];
        now rewrite <- app_assoc).
  assert (R1 : exists rest,
               (((t ++ feeRequests dto) ++ [GetAddrsFull address]) ++ rest
                = t ++ feeRequests dto
                    ++ [GetAddrsFull address; GetDashboardsAddress address])%list)
    by (exists [GetDashboardsAddress address]; now rewrite <- !app_assoc).
  assert (R0 : exists rest,
               ((((t ++ feeRequests dto) ++ [GetAddrsFull address])
                   ++ [GetDashboardsAddress address]) ++ rest
                = t ++ feeRequests dto
                    ++ [GetAddrsFull address; GetDashboardsAddress address])%list)
    by (exists []; now rewrite app_nil_r, <- !app_assoc).
  destruct (feeRate w dto) as [e | f]; [exact R2 | ].
  destruct (validate w (to_address dto)); simpl; [ | exact R2].
  destruct (addrs_full w address) as [e | txs]; [exact R1 | ].
  destruct (selectPreviousOutput address txs) as [e | [h i]]; [exact R1 | ].
  destruct (settleFee _ i _) as [e | settled]; [exact R1 | ].
  destruct (toHex w settled) as [e | hx]; [exact R1 | ].
  destruct (validate w address); simpl; [ | exact R1].
  destruct (dashboards_address w address) as [e | [bal | ]]; simpl;
    try destruct (PrimFloat.ltb _ _); exact R0.
Qed.

Lemma prepare_no_key (w : World) (dto : SendBtcDto) (e : Exception) (t : list NetCall) :
  getAddressFromPrivateKey w (private_key dto) = inl e ->
  prepare w dto t = (inl (Rethrown e), t).
Proof. intro Ha. run. now rewrite Ha. Qed.

(** X1.  A fee of 0 in the request counts as no fee: the send is the
    one of the same request without a fee, estimator included; and
    with any other fee the estimator is never asked. *)
Theorem send_fee_of_zero_is_no_fee :
  (forall w privateKey toAddress amount,
      send w (mkSendBtcDto privateKey toAddress amount (Some 0))
      = send w (mkSendBtcDto privateKey toAddress amount None))
  /\ (forall w dto f,
         fee dto = Some f -> f <> 0 ->
         ~ In GetFeesRecommended (requests (send w dto))).
Proof.
  split; [reflexivity | ].
  intros w dto f Hf Hnz Hin.
  assert (Hq : feeRequests dto = [])
    by (unfold feeRequests; rewrite Hf; now destruct (Z.eqb_spec f 0)).
  unfold requests, send, bind in Hin.
  destruct (getAddressFromPrivateKey w (private_key dto)) as [e | a] eqn:Ha.
  - rewrite (prepare_no_key w dto e [] Ha) in Hin. contradiction.
  - destruct (prepare_requests w dto a [] Ha) as (rest & Hreq).
    rewrite Hq in Hreq. simpl in Hreq.
    destruct (prepare w dto []) as [[e | [a' hx]] t'] eqn:Hp; simpl in *.
    + assert (Hin' : In GetFeesRecommended (t' ++ rest)) by (apply in_or_app; auto).
      rewrite Hreq in Hin'. simpl in Hin'.
      destruct Hin' as [H | [H | []]]; discriminate.
    + rewrite pushTransaction_requests in Hin.
      apply in_app_or in Hin. destruct Hin as [H | [H | []]]; [ | discriminate].
      assert (Hin' : In GetFeesRecommended (t' ++ rest)) by (apply in_or_app; auto).
      rewrite Hreq in Hin'. simpl in Hin'.
      destruct Hin' as [H' | [H' | []]]; discriminate.
Qed.

Lemma send_fee_of_zero_is_no_fee_witness :
  requests (send (Sample.world [Sample.funding] 250000 (PushAccepted "aa"))
                 (Sample.order Sample.destination (Some 0)))
  = requests (send (Sample.world [Sample.funding] 250000 (PushAccepted "aa"))
                   (Sample.order Sample.destination None))
  /\ In GetFeesRecommended
        (requests (send (Sample.world [Sample.funding] 250000 (PushAccepted "aa"))
                        (Sample.order Sample.destination (Some 0)))).
Proof.
  split.
  - unfold Sample.order. now rewrite (proj1 send_fee_of_zero_is_no_fee).
  - vm_compute. auto.
Defined.

(** X2.  [balance] asks the explorer nothing about an address that
    fails validation; about a valid one it asks once.  An address the
    explorer has no entry for gives no zero balance but a failure of
    reading [balance] off [null]; an entry gives its balance over
    10^8. *)
Theorem balance_lookup (w : World) (address : string) (t : list NetCall) :
  (validate w address = false ->
   balance w address t
   = (inl (Rethrown (HttpException "Incorrect address" BAD_REQUEST)), t))
  /\ (validate w address = true ->
      snd (balance w address t) = (t ++ [GetDashboardsAddress address])%list
      /\ (forall bal, dashboards_address w address = inr (Some bal) ->
                      fst (balance w address t)
                      = inr (mkBalanceResult true (convertFromSatoshi bal)))
      /\ (dashboards_address w address = inr None ->
          exists text, fst (balance w address t) = inl (Rethrown (JsError text)))
      /\ (forall e, dashboards_address w address = inl e ->
                    fst (balance w address t) = inl (Rethrown e))).
Proof.
  split; intro Hv; run; rewrite Hv; simpl; [reflexivity | ].
  destruct (dashboards_address w address) as [e | [bal | ]]; simpl;
    repeat split; intros; try discriminate; try congruence; eauto.
Qed.

Lemma balance_lookup_witness :
  balance (Sample.world [] 123456789 (PushAccepted "aa")) "not-an-address" []
  = (inl (Rethrown (HttpException "Incorrect address" BAD_REQUEST)), [])
  /\ fst (balance (Sample.world [] 123456789 (PushAccepted "aa")) Sample.source [])
     = inr (mkBalanceResult true (convertFromSatoshi 123456789)).
Proof.
  split.
  - apply (proj1 (balance_lookup _ _ _)). reflexivity.
  - apply (proj2 (balance_lookup (Sample.world [] 123456789 (PushAccepted "aa"))
                                 Sample.source []) eq_refl).
    reflexivity.
Defined.

(** X3.  The requests of a [send] are an initial part of one fixed
    sequence: the fee estimator if the request names no fee, the
    history of the source address, the dashboard of the source address,
    the push of one transaction.  So nothing is asked twice, nothing is
    asked about the destination, and nothing follows the push. *)
Theorem send_requests_in_order (w : World) (dto : SendBtcDto) (address : string) :
  getAddressFromPrivateKey w (private_key dto) = inr address ->
  exists hex rest,
    (requests (send w dto) ++ rest
     = feeRequests dto
         ++ [GetAddrsFull address; GetDashboardsAddress address;
             PostPushTransaction hex])%list.
Proof.
  intro Ha. unfold requests, send, bind.
  destruct (prepare w dto []) as [[e | [a hx]] t'] eqn:Hp.
  - destruct (prepare_requests w dto address [] Ha) as (rest & Hreq).
    rewrite Hp in Hreq. simpl in *.
    exists "", (rest ++ [PostPushTransaction ""])%list.
    rewrite app_assoc, Hreq, <- app_assoc. reflexivity.
  - rewrite pushTransaction_requests.
    apply prepare_inr in Hp.
    destruct Hp as (f & h & i & txs & bal & (Ha' & _) & _ & _ & _ & _ & _ & Ht).
    assert (a = address) by congruence. subst a t'.
    exists hx, []. simpl. now rewrite app_nil_r, <- app_assoc.
Qed.

Lemma send_requests_in_order_witness :
  exists hex rest,
    (requests (send (Sample.world [Sample.funding; Sample.change] 250000 (PushAccepted "aa"))
                    (Sample.order Sample.destination None)) ++ rest
     = [GetFeesRecommended; GetAddrsFull Sample.source;
        GetDashboardsAddress Sample.source; PostPushTransaction hex])%list.
Proof.
  exact (send_requests_in_order
           (Sample.world [Sample.funding; Sample.change] 250000 (PushAccepted "aa"))
           (Sample.order Sample.destination None) Sample.source eq_refl).
Defined.

(** X4.  A [send] that fails has either failed before the push, with an
    exception rethrown by the outer handler (so with status 500, also
    for what was thrown as a bad request) and nothing broadcast; or it
    has pushed its transaction, got an error that does not carry
    [response.data.context.error], and fails with the [TypeError] of
    reading it, outside every handler. *)
Theorem send_failures (w : World) (dto : SendBtcDto) (e : Exception) :
  outcome (send w dto) = inl e ->
  (exists c, e = Rethrown c /\ broadcast (requests (send w dto)) = false)
  \/ (exists hex text,
         e = JsError text
         /\ push_transaction w hex = PushUnreadable text
         /\ In (PostPushTransaction hex) (requests (send w dto))).
Proof.
  pose proof (prepare_quiet w dto []) as Hq.
  unfold outcome, requests, send, bind.
  destruct (prepare w dto []) as [[c | [a hx]] t'] eqn:Hp; simpl in *.
  - intro H; inversion H; subst. left.
    destruct (prepare_inl _ _ _ _ _ Hp) as (c' & ->). eauto.
  - unfold pushTransaction, bind, request, ret, throw.
    destruct (push_transaction w hx) as [id | msg | text] eqn:Hpush;
      [ | destruct (_ =? _)%string | ]; try discriminate.
    intro H; inversion H; subst. right. exists hx, text. repeat split; auto.
    apply in_or_app; right; left; reflexivity.
Qed.

Lemma send_failures_witness :
  outcome (send (Sample.world [Sample.funding] 250000
                   (PushUnreadable "Cannot read properties of undefined (reading 'error')"))
                (Sample.order Sample.destination (Some 10)))
  = inl (JsError "Cannot read properties of undefined (reading 'error')")
  /\ ((exists c,
          JsError "Cannot read properties of undefined (reading 'error')" = Rethrown c
          /\ broadcast
               (requests
                  (send (Sample.world [Sample.funding] 250000
                           (PushUnreadable
                              "Cannot read properties of undefined (reading 'error')"))
                        (Sample.order Sample.destination (Some 10)))) = false)
      \/ (exists hex text,
             JsError "Cannot read properties of undefined (reading 'error')" = JsError text
             /\ push_transaction
                  (Sample.world [Sample.funding] 250000
                     (PushUnreadable
                        "Cannot read properties of undefined (reading 'error')")) hex
                = PushUnreadable text
             /\ In (PostPushTransaction hex)
                   (requests
                      (send (Sample.world [Sample.funding] 250000
                               (PushUnreadable
                                  "Cannot read properties of undefined (reading 'error')"))
                            (Sample.order Sample.destination (Some 10)))))).
Proof.
  assert (H : outcome (send (Sample.world [Sample.funding] 250000
                   (PushUnreadable "Cannot read properties of undefined (reading 'error')"))
                (Sample.order Sample.destination (Some 10)))
              = inl (JsError "Cannot read properties of undefined (reading 'error')"))
    by (vm_compute; reflexivity).
  split; [exact H | ].
  exact (send_failures _ _ _ H).
Defined.

(** X5.  What a successful [send] reports: the hash the push endpoint
    answered, the address of the key as sender, the destination, and
    as value the amount of the request; while the one output of the
    transaction it pushed carries the fee, not that amount. *)
Theorem send_reports_requested_amount (w : World) (dto : SendBtcDto)
        (ok : bool) (id sender receiver : string) (v : float) (ts : string) :
  outcome (send w dto) = inr (Transferred ok id sender receiver v ts) ->
  ok = true
  /\ getAddressFromPrivateKey w (private_key dto) = inr sender
  /\ receiver = to_address dto
  /\ v = amount dto
  /\ ts = Date_now w
  /\ exists f h hex,
      feeRate w dto = inr f
      /\ toHex w (mkTransaction
                    [mkTxIn h 0]
                    [mkTxOut (to_address dto)
                             (f * byteLength w (buildTransaction w h 0 (to_address dto)
                                                                 (amount dto)))])
         = inr hex
      /\ push_transaction w hex = PushAccepted id.
Proof.
  unfold outcome, send, bind.
  destruct (prepare w dto []) as [[c | [a hx]] t'] eqn:Hp; simpl; [discriminate | ].
  unfold pushTransaction, bind, request, ret, throw.
  destruct (push_transaction w hx) as [id' | msg | text] eqn:Hpush;
    [ | destruct (_ =? _)%string | ]; try discriminate.
  intro H; inversion H; subst.
  apply prepare_inr in Hp.
  destruct Hp as (f & h & i & txs & bal & (Ha & Hf & _) & _ & _
                  & (settled & Hset & Hhex & _) & _).
  destruct (settleFee_built _ _ _ _ _ _ _ Hset) as (Hi & Hs). subst i settled.
  repeat split; auto. exists f, h, hx. auto.
Qed.

Lemma send_reports_requested_amount_witness :
  Sample.amount_sent = amount (Sample.order Sample.destination (Some 10))
  /\ exists f h hex,
      feeRate (Sample.world [Sample.funding] 250000 (PushAccepted "aa"))
              (Sample.order Sample.destination (Some 10)) = inr f
      /\ toHex (Sample.world [Sample.funding] 250000 (PushAccepted "aa"))
               (mkTransaction [mkTxIn h 0]
                              [mkTxOut Sample.destination (f * 191)])
         = inr hex
      /\ push_transaction (Sample.world [Sample.funding] 250000 (PushAccepted "aa")) hex
         = PushAccepted "aa".
Proof.
  destruct (send_reports_requested_amount
              (Sample.world [Sample.funding] 250000 (PushAccepted "aa"))
              (Sample.order Sample.destination (Some 10))
              true "aa" Sample.source Sample.destination Sample.amount_sent
              "1700000000000" ltac:(vm_compute; reflexivity))
    as (_ & _ & _ & Hv & _ & f & h & hex & Hf & Hhex & Hpush).
  split; [exact Hv | ]. exists f, h, hex. auto.
Defined.

(** X6.  The resolution of the prior output looks at the last
    transaction of the history alone: whatever precedes it, paying the
    address or not, changes nothing, be the result a reference or a
    failure. *)
Theorem resolution_reads_last_only (address : string) (earlier : list Tx) (tx : Tx) :
  selectPreviousOutput address (earlier ++ [tx]) = selectPreviousOutput address [tx].
Proof.
  rewrite !selectPreviousOutput_selected.
  assert (H : selectedTransaction (earlier ++ [tx]) = Some tx).
  { destruct earlier as [ | tx0 rest]; [reflexivity | ].
    change (Some (last ((tx0 :: rest) ++ [tx]) tx0) = Some tx).
    now rewrite last_last. }
  now rewrite H.
Qed.

End BtcMore.

(** ** Properties of the read-only companions *)

Module BtcHistoryFacts.

Import Btc BtcHistory.

Ltac run :=
  unfold transactions, transaction, rethrowMessage, outcome, requests;
  unfold tryCatch, rethrow, bind, ret, throw, lift, request.

Lemma transaction_run (x : Explorer) (hash : string) (t : list Call) :
  transaction x hash t
  = (match dashboards_transaction x hash with
     | inl e => inl (HttpException (message e) INTERNAL_SERVER_ERROR)
     | inr None =>
         inl (HttpException
                "Cannot read properties of undefined (reading 'transaction')"
                INTERNAL_SERVER_ERROR)
     | inr (Some d) =>
         match at_index (inputs d) 0, at_index (outputs d) 0 with
         | Some input, Some output =>
             inr (mkTransactionResult true (view x d input output))
         | _, _ =>
             inl (HttpException
                    "Cannot read properties of undefined (reading 'recipient')"
                    INTERNAL_SERVER_ERROR)
         end
     end, (t ++ [GetDashboardsTransaction hash])%list).
Proof.
  run. destruct (dashboards_transaction x hash) as [e | [d | ]]; try reflexivity.
  destruct (at_index (inputs d) 0), (at_index (outputs d) 0); reflexivity.
Qed.

Lemma transaction_shown (x : Explorer) (hash : string) (v : TransactionView)
      (t : list Call) :
  shown x hash = Some v ->
  transaction x hash t
  = (inr (mkTransactionResult true v), (t ++ [GetDashboardsTransaction hash])%list).
Proof.
  rewrite transaction_run. unfold shown.
  destruct (dashboards_transaction x hash) as [e | [d | ]]; try discriminate.
  destruct (at_index (inputs d) 0), (at_index (outputs d) 0); try discriminate.
  intro H; inversion H; reflexivity.
Qed.

Lemma transaction_not_shown (x : Explorer) (hash : string) (t : list Call) :
  shown x hash = None ->
  exists text,
    transaction x hash t
    = (inl (HttpException text INTERNAL_SERVER_ERROR),
       (t ++ [GetDashboardsTransaction hash])%list).
Proof.
  rewrite transaction_run. unfold shown.
  destruct (dashboards_transaction x hash) as [e | [d | ]]; eauto.
  destruct (at_index (inputs d) 0), (at_index (outputs d) 0);
    try discriminate; eauto.
Qed.

(** The loop, when every lookup shows its transaction. *)
Lemma lookupEach_shown (x : Explorer) (hashes : list string) (vs : list TransactionView) :
  Forall2 (fun h v => shown x h = Some v) hashes vs ->
  forall acc t,
    lookupEach x acc hashes t
    = (inr (acc ++ vs)%list, (t ++ map GetDashboardsTransaction hashes)%list).
Proof.
  induction 1 as [ | h v hashes vs Hv _ IH]; intros acc t; simpl.
  - unfold ret. now rewrite !app_nil_r.
  - unfold bind. rewrite (transaction_shown x h v t Hv). simpl.
    rewrite IH, <- !app_assoc. reflexivity.
Qed.

(** The loop, when a lookup fails after some that succeeded. *)
Lemma lookupEach_fails (x : Explorer) (done : list string) (vs : list TransactionView)
      (h : string) (rest : list string) :
  Forall2 (fun h v => shown x h = Some v) done vs ->
  shown x h = None ->
  forall acc t,
  exists text,
    lookupEach x acc (done ++ h :: rest) t
    = (inl (HttpException text INTERNAL_SERVER_ERROR),
       (t ++ map GetDashboardsTransaction (done ++ [h]))%list).
Proof.
  intros Hdone Hh.
  induction Hdone as [ | h0 v done vs Hv _ IH]; intros acc t; simpl.
  - unfold bind. destruct (transaction_not_shown x h t Hh) as (text & Ht).
    rewrite Ht. eauto.
  - unfold bind. rewrite (transaction_shown x h0 v t Hv). simpl.
    destruct (IH (acc ++ [v])%list (t ++ [GetDashboardsTransaction h0])%list)
      as (text & Ht).
    rewrite Ht, <- app_assoc. eauto.
Qed.

(** X7.  For a transaction the explorer knows, with at least one input
    and one output, [transaction] asks once and reports the recipient
    of the first input as sender and the recipient and value of the
    first output as receiver and value, whatever the other inputs and
    outputs are; the value and the fee are converted from satoshi; and
    [is_success_transaction] is false exactly for a [block_id] of
    -1. *)
Theorem transaction_reads_first_input_and_output (x : Explorer) (hash : string)
        (d : TransactionData) (input output : Recipient)
        (inputs' outputs' : list Recipient) (t : list Call) :
  dashboards_transaction x hash = inr (Some d) ->
  inputs d = input :: inputs' ->
  outputs d = output :: outputs' ->
  exists v,
    transaction x hash t
    = (inr (mkTransactionResult true v), (t ++ [GetDashboardsTransaction hash])%list)
    /\ transaction_id v = info_hash (transaction_info d)
    /\ from v = recipient input
    /\ to v = recipient output
    /\ view_value v = convertFromSatoshi (recipient_value output)
    /\ view_fee v = convertFromSatoshi (info_fee (transaction_info d))
    /\ (is_success_transaction v = false <-> block_id (transaction_info d) = -1).
Proof.
  intros Hd Hi Ho. exists (view x d input output).
  rewrite transaction_run, Hd, Hi, Ho. simpl. repeat split.
  - intro H. apply negb_false_iff in H. now apply Z.eqb_eq.
  - intro H. apply negb_false_iff. now apply Z.eqb_eq.
Qed.

Lemma transaction_reads_first_input_and_output_witness :
  exists v,
    transaction (sampleExplorer [("f0e1", payment); ("9b7d", pending)] None) "9b7d" []
    = (inr (mkTransactionResult true v), [GetDashboardsTransaction "9b7d"])
    /\ from v = Sample.source
    /\ to v = Sample.destination
    /\ is_success_transaction v = false.
Proof.
  destruct (transaction_reads_first_input_and_output
              (sampleExplorer [("f0e1", payment); ("9b7d", pending)] None) "9b7d"
              pending (mkRecipient Sample.source 250000)
              (mkRecipient Sample.destination 40000) [] [] []
              eq_refl eq_refl eq_refl)
    as (v & Hrun & _ & Hf & Ht & _ & _ & Hs).
  exists v. repeat split; auto. now apply Hs.
Defined.

(** X8.  [transaction] asks the explorer exactly once, whatever comes
    of it.  Every failure is an exception with status 500 that carries
    the text of the original error and no cause: that of the request,
    or, for a transaction the explorer does not know or one without an
    input or without an output, that of reading a field off
    [undefined]. *)
Theorem transaction_failures (x : Explorer) (hash : string) (t : list Call) :
  snd (transaction x hash t) = (t ++ [GetDashboardsTransaction hash])%list
  /\ (forall e, fst (transaction x hash t) = inl e ->
                exists text, e = HttpException text INTERNAL_SERVER_ERROR)
  /\ (forall e, dashboards_transaction x hash = inl e ->
                fst (transaction x hash t)
                = inl (HttpException (message e) INTERNAL_SERVER_ERROR))
  /\ (shown x hash = None <-> exists e, fst (transaction x hash t) = inl e).
Proof.
  rewrite transaction_run. unfold shown. simpl.
  assert (Hfail : forall text,
             (forall e, inl (HttpException text INTERNAL_SERVER_ERROR)
                        = (inl e : Exception + TransactionResult) ->
                        exists text', e = HttpException text' INTERNAL_SERVER_ERROR)
             /\ (@None TransactionView = None <->
                 exists e, inl (HttpException text INTERNAL_SERVER_ERROR)
                           = (inl e : Exception + TransactionResult))).
  { intro text. split.
    - intros e H. inversion H. eauto.
    - split; eauto. }
  split; [reflexivity | ].
  destruct (dashboards_transaction x hash) as [e | [d | ]].
  - destruct (Hfail (message e)) as [H1 H2].
    split; [exact H1 | split; [ | exact H2]].
    intros e0 H; inversion H; reflexivity.
  - destruct (at_index (inputs d) 0), (at_index (outputs d) 0);
      try (destruct (Hfail "Cannot read properties of undefined (reading 'recipient')")
             as [H1 H2];
           split; [exact H1 | split; [ | exact H2]];
           intros e0 H; discriminate).
    split; [intros e H; discriminate | split; [intros e H; discriminate | ]].
    split; [discriminate | intros (e & H); discriminate].
  - destruct (Hfail "Cannot read properties of undefined (reading 'transaction')")
      as [H1 H2].
    split; [exact H1 | split; [ | exact H2]].
    intros e0 H; discriminate.
Qed.

Lemma transaction_failures_witness :
  shown (sampleExplorer [("c0b4", inputless)] None) "c0b4" = None
  /\ exists e, fst (transaction (sampleExplorer [("c0b4", inputless)] None) "c0b4" [])
               = inl e.
Proof.
  split; [reflexivity | ].
  apply (proj1 (proj2 (proj2 (proj2
          (transaction_failures (sampleExplorer [("c0b4", inputless)] None) "c0b4" []))))).
  reflexivity.
Defined.

(** X9.  When every transaction of the address is shown, [transactions]
    returns their views in the order of the explorer's list, one per
    hash, having asked for the address first and then for each hash in
    turn, once. *)
Theorem transactions_in_order (x : Explorer) (address : string)
        (hashes : list string) (vs : list TransactionView) (t : list Call) :
  validate (world x) address = true ->
  dashboards_address_transactions x address = inr (Some hashes) ->
  Forall2 (fun h v => shown x h = Some v) hashes vs ->
  transactions x address t
  = (inr (mkTransactionsResult true vs),
     (t ++ Net (GetDashboardsAddress address) :: map GetDashboardsTransaction hashes)%list).
Proof.
  intros Hv Hh Hs. run. rewrite Hv. simpl. rewrite Hh.
  rewrite (lookupEach_shown x hashes vs Hs). simpl.
  now rewrite <- app_assoc.
Qed.

Lemma transactions_in_order_witness :
  transactions (sampleExplorer [("f0e1", payment); ("9b7d", pending)]
                               (Some ["9b7d"; "f0e1"]))
               Sample.source []
  = (inr (mkTransactionsResult true
            [view (sampleExplorer [] None) pending
                  (mkRecipient Sample.source 250000)
                  (mkRecipient Sample.destination 40000);
             view (sampleExplorer [] None) payment
                  (mkRecipient Sample.destination 300000)
                  (mkRecipient Sample.source 250000)]),
     [Net (GetDashboardsAddress Sample.source);
      GetDashboardsTransaction "9b7d"; GetDashboardsTransaction "f0e1"]).
Proof.
  apply (transactions_in_order
           (sampleExplorer [("f0e1", payment); ("9b7d", pending)] (Some ["9b7d"; "f0e1"]))
           Sample.source ["9b7d"; "f0e1"]).
  - reflexivity.
  - reflexivity.
  - repeat constructor.
Defined.

(** X10.  The first lookup that fails ends [transactions]: the hashes
    after it are not asked for, the views gathered so far are dropped,
    and the failure is that of the lookup, rethrown. *)
Theorem transactions_stop_at_first_failure (x : Explorer) (address : string)
        (done : list string) (vs : list TransactionView) (h : string)
        (rest : list string) (t : list Call) :
  validate (world x) address = true ->
  dashboards_address_transactions x address = inr (Some (done ++ h :: rest)%list) ->
  Forall2 (fun h v => shown x h = Some v) done vs ->
  shown x h = None ->
  exists text,
    transactions x address t
    = (inl (Rethrown (HttpException text INTERNAL_SERVER_ERROR)),
       (t ++ Net (GetDashboardsAddress address)
          :: map GetDashboardsTransaction (done ++ [h]))%list).
Proof.
  intros Hv Hh Hdone Hn. run. rewrite Hv. simpl. rewrite Hh.
  destruct (lookupEach_fails x done vs h rest Hdone Hn []
              (t ++ [Net (GetDashboardsAddress address)])%list) as (text & Hl).
  rewrite Hl. exists text. now rewrite <- app_assoc.
Qed.

Lemma transactions_stop_at_first_failure_witness :
  exists text,
    transactions (sampleExplorer [("f0e1", payment); ("c0b4", inputless)]
                                 (Some ["f0e1"; "c0b4"; "9b7d"]))
                 Sample.source []
    = (inl (Rethrown (HttpException text INTERNAL_SERVER_ERROR)),
       [Net (GetDashboardsAddress Sample.source);
        GetDashboardsTransaction "f0e1"; GetDashboardsTransaction "c0b4"]).
Proof.
  apply (transactions_stop_at_first_failure
           (sampleExplorer [("f0e1", payment); ("c0b4", inputless)]
                           (Some ["f0e1"; "c0b4"; "9b7d"]))
           Sample.source ["f0e1"]
           [view (sampleExplorer [] None) payment
                 (mkRecipient Sample.destination 300000)
                 (mkRecipient Sample.source 250000)]
           "c0b4" ["9b7d"] []).
  - reflexivity.
  - reflexivity.
  - repeat constructor.
  - reflexivity.
Defined.

(** X11.  [transactions] asks nothing about an address that fails
    validation, and asks for no transaction when the explorer has no
    entry for the address: it fails with "Incorrect address" and with
    "Address not found"; an entry with an empty list gives an empty
    result. *)
Theorem transactions_without_history (x : Explorer) (address : string) (t : list Call) :
  (validate (world x) address = false ->
   transactions x address t
   = (inl (Rethrown (HttpException "Incorrect address" BAD_REQUEST)), t))
  /\ (validate (world x) address = true ->
      dashboards_address_transactions x address = inr None ->
      transactions x address t
      = (inl (Rethrown (HttpException "Address not found" BAD_REQUEST)),
         (t ++ [Net (GetDashboardsAddress address)])%list))
  /\ (validate (world x) address = true ->
      dashboards_address_transactions x address = inr (Some []) ->
      transactions x address t
      = (inr (mkTransactionsResult true []),
         (t ++ [Net (GetDashboardsAddress address)])%list)).
Proof.
  repeat split; intro Hv; [ | intro Hh | intro Hh]; run; rewrite Hv; simpl;
    rewrite ?Hh; simpl; rewrite ?app_nil_r; reflexivity.
Qed.

Lemma transactions_without_history_witness :
  transactions (sampleExplorer [] None) Sample.source []
  = (inl (Rethrown (HttpException "Address not found" BAD_REQUEST)),
     [Net (GetDashboardsAddress Sample.source)]).
Proof.
  apply (proj1 (proj2 (transactions_without_history
                         (sampleExplorer [] None) Sample.source []))).
  - reflexivity.
  - reflexivity.
Defined.

End BtcHistoryFacts.

(** ** Further properties of the account-model engine *)

Module Web3More.

Import Web3 Web3Spec Web3Facts.

Ltac run :=
  unfold send, balance, calculateEstimateGasFees, getContractDecimal, balanceCall,
    outcome, requests;
  unfold tryCatch, rethrow, bind, ret, throw, lift, request.

Lemma eqb_coin_token (s : string) : s = "coin" -> (s =? "token") = false.
Proof. intros ->. reflexivity. Qed.

(** X12.  A coin transfer asks the node for the nonce of the sender and
    for nothing else before signing: no gas price, no estimate, no
    contract call.  Its gas is the limit of the request when that is
    above 0 and 63000 otherwise; its value is the amount converted by
    [toWei]; it carries the chain id; and the receipt of the one
    submission is the result. *)
Theorem send_coin (n : Node) (chainId : string) (dto : SendWeb3Dto)
        (address wei : string) (nonce : Z) (raw rc : string) (t : list RpcCall) :
  type dto = "coin" ->
  getAddressByPrivateKey n (private_key dto) = inr address ->
  isAddress n (to_address dto) = true ->
  utils_toWei_ether n (Num.Number_text (amount dto)) = inr wei ->
  eth_getTransactionCount n address = inr nonce ->
  signTransaction n
    (Some (CoinTransfer address (utils_toHex n nonce) (coinGas (gas_limit dto))
                        (to_address dto) wei chainId))
    (private_key dto) = inr raw ->
  sendSignedTransaction n raw = inr rc ->
  send n chainId dto t
  = (inr (mkSendResult true rc),
     (t ++ [EthGetTransactionCount address;
            SignTransaction
              (Some (CoinTransfer address (utils_toHex n nonce) (coinGas (gas_limit dto))
                                  (to_address dto) wei chainId));
            SendSignedTransaction raw])%list).
Proof.
  intros Hty Ha Hv Hw Hn Hs Hr. run.
  rewrite Ha, Hv, (eqb_coin_token _ Hty), Hty. simpl.
  rewrite Hw, Hn. fold (coinGas (gas_limit dto)). rewrite Hs, Hr.
  now rewrite <- !app_assoc.
Qed.

Lemma send_coin_witness :
  send (Sample.node 18 60000) "56" (coinOrder (Some (-5))) []
  = (inr (mkSendResult true "receipt"),
     [EthGetTransactionCount "0x52908400098527886E0F7030069857D2E4169EE7";
      SignTransaction
        (Some (CoinTransfer "0x52908400098527886E0F7030069857D2E4169EE7" "7" 63000
                            Sample.holder "1.5" "56"));
      SendSignedTransaction "0xf86c"]).
Proof.
  apply (send_coin (Sample.node 18 60000) "56" (coinOrder (Some (-5)))
           "0x52908400098527886E0F7030069857D2E4169EE7" "1.5" 7 "0xf86c" "receipt" []);
    reflexivity.
Defined.

(** X13.  [send] does not reject an asset kind that is neither "coin"
    nor "token": with a valid recipient it asks the node nothing,
    builds no transaction, and hands [undefined] to [signTransaction];
    what that answers decides the rest. *)
Theorem send_of_unknown_kind (n : Node) (chainId : string) (dto : SendWeb3Dto)
        (address : string) (t : list RpcCall) :
  type dto <> "coin" ->
  type dto <> "token" ->
  getAddressByPrivateKey n (private_key dto) = inr address ->
  isAddress n (to_address dto) = true ->
  send n chainId dto t
  = match signTransaction n None (private_key dto) with
    | inl e => (inl (Rethrown e), t ++ [SignTransaction None])%list
    | inr raw =>
        (match sendSignedTransaction n raw with
         | inl e => inl (Rethrown e)
         | inr rc => inr (mkSendResult true rc)
         end, t ++ [SignTransaction None; SendSignedTransaction raw])%list
    end.
Proof.
  intros Hc Ht Ha Hv. run. rewrite Ha, Hv.
  destruct (String.eqb_spec (type dto) "coin"); [contradiction | ].
  destruct (String.eqb_spec (type dto) "token"); [contradiction | ].
  destruct (signTransaction n None (private_key dto)) as [e | raw]; [reflexivity | ].
  rewrite <- app_assoc. simpl.
  destruct (sendSignedTransaction n raw); reflexivity.
Qed.

Lemma send_of_unknown_kind_witness :
  send (Sample.node 18 60000) "56"
       (mkSendWeb3Dto "0x4c08" Sample.holder Sample.one_and_a_half "nft" None None) []
  = (inr (mkSendResult true "receipt"),
     [SignTransaction None; SendSignedTransaction "0xf86c"]).
Proof.
  rewrite (send_of_unknown_kind (Sample.node 18 60000) "56"
             (mkSendWeb3Dto "0x4c08" Sample.holder Sample.one_and_a_half "nft" None None)
             "0x52908400098527886E0F7030069857D2E4169EE7" []).
  - reflexivity.
  - discriminate.
  - discriminate.
  - reflexivity.
  - reflexivity.
Defined.

(** X14.  For the asset kind "token", a contract address that is absent
    or fails validation makes [send] and [balance] fail with
    "Incorrect contract address" before any request to the node. *)
Theorem token_contract_is_validated_first :
  (forall n chainId dto address t,
      type dto = "token" ->
      getAddressByPrivateKey n (private_key dto) = inr address ->
      isAddress n (to_address dto) = true ->
      isAddress_opt n (contract dto) = false ->
      send n chainId dto t = (inl (Rethrown IncorrectContract), t))
  /\ (forall n dto t,
         b_type dto = "token" ->
         isAddress n (b_address dto) = true ->
         isAddress_opt n (b_contract dto) = false ->
         balance n dto t = (inl (Rethrown IncorrectContract), t)).
Proof.
  split.
  - intros n chainId dto address t Hty Ha Hv Hc. run.
    rewrite Ha, Hv, Hty, Hc. reflexivity.
  - intros n dto t Hty Hv Hc. run. rewrite Hv, Hty, Hc. reflexivity.
Qed.

Lemma token_contract_is_validated_first_witness :
  send (Sample.node 18 60000) "56"
       (mkSendWeb3Dto "0x4c08" Sample.holder Sample.one_and_a_half "token" None None) []
  = (inl (Rethrown IncorrectContract), [])
  /\ balance (Sample.node 18 60000) (mkBalanceWeb3Dto Sample.holder "token" (Some "0x0")) []
     = (inl (Rethrown IncorrectContract), []).
Proof.
  split.
  - apply (proj1 token_contract_is_validated_first (Sample.node 18 60000) "56" _
             "0x52908400098527886E0F7030069857D2E4169EE7"); reflexivity.
  - apply (proj2 token_contract_is_validated_first); reflexivity.
Defined.

(** X15.  With a gas limit above 0 in the request,
    [calculateEstimateGasFees] asks for the gas price and for nothing
    else: no transfer is estimated; the limit is the one of the
    request, and the fee quoted is what [fromWei] makes of the text of
    limit times price, a product of numbers. *)
Theorem gas_limit_override (n : Node) (amount address : string) (dto : SendWeb3Dto)
        (g price : Z) (fees : string) (t : list RpcCall) :
  gas_limit dto = Some g ->
  0 < g ->
  eth_getGasPrice n = inr price ->
  utils_fromWei n (Num.Number_text (Number_mul (Some g) price)) = inr fees ->
  calculateEstimateGasFees n amount address dto t
  = (inr (mkGasFees amount "ok" g price fees), (t ++ [EthGetGasPrice])%list).
Proof.
  intros Hg Hpos Hp Hf. rewrite calculateEstimateGasFees_run, Hp, Hg. simpl.
  destruct (Z.ltb_spec 0 g); [ | lia]. now rewrite Hf.
Qed.

Lemma gas_limit_override_witness :
  calculateEstimateGasFees (Sample.node 18 51234) "1500000"
    "0x52908400098527886E0F7030069857D2E4169EE7"
    (Sample.transfer Sample.one_and_a_half (Some 90000)) []
  = (inr (mkGasFees "1500000" "ok" 90000 5000000000 "450000000000000"),
     [EthGetGasPrice]).
Proof.
  apply (gas_limit_override (Sample.node 18 51234) "1500000"
           "0x52908400098527886E0F7030069857D2E4169EE7"
           (Sample.transfer Sample.one_and_a_half (Some 90000)) 90000 5000000000);
    reflexivity.
Defined.

(** The product is one of numbers: of 123456789 gas at a price of
    5000000001 the text handed to [fromWei] is not that of the
    integer 617283945123456789. *)
Lemma fee_quote_is_rounded :
  Num.Number_text (Number_mul (Some 123456789) 5000000001) = "617283945123456800".
Proof. vm_compute. reflexivity. Qed.

(** X16.  When the limit is estimated, the fee quoted is still computed
    from the limit of the request, never from the estimate: it is the
    text of limit times price, and the text of NaN when the request
    has no limit.  If [fromWei] rejects that text the whole
    calculation fails, after the price and the estimate were
    obtained. *)
Theorem fee_quote_ignores_estimate (n : Node) (amount address : string)
        (dto : SendWeb3Dto) (price estimate : Z) (t : list RpcCall) :
  positive_limit (gas_limit dto) = false ->
  eth_getGasPrice n = inr price ->
  estimateGas_transfer n (contract_text (contract dto)) (to_address dto) amount address
  = inr estimate ->
  calculateEstimateGasFees n amount address dto t
  = (match utils_fromWei n (Num.Number_text (Number_mul (gas_limit dto) price)) with
     | inl e => inl e
     | inr fees =>
         inr (mkGasFees amount "ok" (parseInt_of_half estimate + estimate) price fees)
     end,
     (t ++ [EthGetGasPrice;
            EstimateGasTransfer (contract_text (contract dto)) (to_address dto)
                                amount address])%list)
  /\ (gas_limit dto = None ->
      Num.Number_text (Number_mul (gas_limit dto) price) = "NaN").
Proof.
  intros Hg Hp He. rewrite calculateEstimateGasFees_run, Hp, Hg. simpl.
  rewrite He. split; [reflexivity | ]. intros ->. apply Number_mul_absent.
Qed.

Lemma fee_quote_ignores_estimate_witness :
  fst (calculateEstimateGasFees
         (Sample.node 18 51234) "1500000" "0x52908400098527886E0F7030069857D2E4169EE7"
         (Sample.transfer Sample.one_and_a_half None) [])
  = inr (mkGasFees "1500000" "ok" 76851 5000000000 "NaN").
Proof.
  rewrite (proj1 (fee_quote_ignores_estimate
                    (Sample.node 18 51234) "1500000"
                    "0x52908400098527886E0F7030069857D2E4169EE7"
                    (Sample.transfer Sample.one_and_a_half None) 5000000000 51234 []
                    eq_refl eq_refl eq_refl)).
  reflexivity.
Defined.


Ltac split_cases :=
  repeat match goal with
         | |- context [match ?x with inl _ => _ | inr _ => _ end] =>
             let E := fresh "E" in destruct x eqn:E; simpl
         | |- context [if ?x then _ else _] =>
             let E := fresh "E" in destruct x eqn:E; simpl
         end.

(** Whatever fails inside the [try] of a method is rethrown. *)
Lemma tryCatch_rethrow {Ev A} (c : Js.Task Ev A) (t t' : list Ev) (e : Exception) :
  tryCatch c rethrow t = (inl e, t') -> exists cause, e = Rethrown cause.
Proof.
  unfold tryCatch, rethrow, throw.
  destruct (c t) as [[cause | a] t'']; intro H; inversion H; eauto.
Qed.

(** X17.  Every failure of the account-model [send] is an exception
    rethrown by its handler.  A run submits at most one signed
    transaction.  A [send] that succeeds has submitted exactly one, as
    its last request and right after signing: the raw transaction
    [signTransaction] returned, whose receipt is the result. *)
Theorem send_submits_once (n : Node) (chainId : string) (dto : SendWeb3Dto) :
  (forall e, outcome (send n chainId dto) = inl e -> exists c, e = Rethrown c)
  /\ (length (submissions (requests (send n chainId dto))) <= 1)%nat
  /\ (forall r,
         outcome (send n chainId dto) = inr r ->
         s_status r = true
         /\ exists front tx raw,
             requests (send n chainId dto)
             = (front ++ [SignTransaction tx; SendSignedTransaction raw])%list
             /\ submissions front = []
             /\ signTransaction n tx (private_key dto) = inr raw
             /\ sendSignedTransaction n raw = inr (receipt r)).
Proof.
  split; [ | split].
  - intros e H. unfold outcome, send in H.
    destruct (tryCatch _ rethrow []) as [r t'] eqn:Hrun. simpl in H. subst r.
    eapply tryCatch_rethrow; eauto.
  - unfold requests, send, getContractDecimal.
    unfold tryCatch, rethrow, bind, ret, throw, lift, request.
    rewrite ?calculateEstimateGasFees_run.
    split_cases; auto; rewrite ?calculateEstimateGasFees_run; split_cases; auto.
  - intro r. unfold outcome, requests, send, getContractDecimal.
    unfold tryCatch, rethrow, bind, ret, throw, lift, request.
    rewrite ?calculateEstimateGasFees_run.
    split_cases; try discriminate;
      rewrite ?calculateEstimateGasFees_run; split_cases; try discriminate;
      intro H; inversion H; subst; simpl; (split; [reflexivity | ]);
      match goal with
      | Hs : signTransaction n ?tx _ = inr ?raw |- _ =>
          match goal with
          | |- exists front _ _, ?l = _ /\ _ =>
              exists (removelast (removelast l)), tx, raw
          end
      end; simpl; auto.
Qed.


(** X18.  For a valid address, [balance] of kind "coin" asks the node
    for the balance and for nothing else, and returns it as [fromWei]
    and [parseFloat] render it; of kind "token", with a valid contract,
    it asks the contract for its decimals and then for the balance of
    the address, and returns the balance divided by what [Math.pow]
    makes of ten and the decimals. *)
Theorem balance_lookups (n : Node) (dto : BalanceWeb3Dto) (t : list RpcCall) :
  isAddress n (b_address dto) = true ->
  (forall wei ether,
      b_type dto = "coin" ->
      eth_getBalance n (b_address dto) = inr wei ->
      utils_fromWei n wei = inr ether ->
      balance n dto t
      = (inr (mkBalanceResult true (Some (parseFloat n ether))),
         (t ++ [EthGetBalance (b_address dto)])%list))
  /\ (forall c decimal held,
         b_type dto = "token" ->
         b_contract dto = Some c ->
         isAddress n c = true ->
         call_decimals n c = inr decimal ->
         call_balanceOf n c (b_address dto) = inr held ->
         balance n dto t
         = (inr (mkBalanceResult true
                   (Some (PrimFloat.div (Num.Number_of_Z held) (Math_pow10 n decimal)))),
            (t ++ [CallDecimals c; CallBalanceOf c (b_address dto)])%list)).
Proof.
  intro Hv. split.
  - intros wei ether Hty Hb Hf. run. rewrite Hv, Hty. simpl. now rewrite Hb, Hf.
  - intros c decimal held Hty Hc Hvc Hd Hh. run. rewrite Hv, Hty, Hc. simpl.
    rewrite Hvc, Hd, Hh. now rewrite <- app_assoc.
Qed.

Lemma balance_lookups_witness :
  balance (Sample.node 6 60000) (mkBalanceWeb3Dto Sample.holder "token" (Some Sample.token)) []
  = (inr (mkBalanceResult true
            (Some (PrimFloat.div (Num.Number_of_Z 0)
                                 (Math_pow10 (Sample.node 6 60000) 6)))),
     [CallDecimals Sample.token; CallBalanceOf Sample.token Sample.holder]).
Proof.
  apply (proj2 (balance_lookups (Sample.node 6 60000)
                  (mkBalanceWeb3Dto Sample.holder "token" (Some Sample.token)) []
                  eq_refl));
    reflexivity.
Defined.

(** X19.  A token transfer asks for the decimals of the contract first,
    then computes the fees.  The amount text it had estimated is the
    very text it encodes into the call data; the transaction it signs
    is addressed to the contract, the recipient being in the call data
    alone, and its gas is the limit the fee calculation resolved. *)
Theorem send_token (n : Node) (chainId : string) (dto : SendWeb3Dto)
        (address c : string) (decimal : N) (fees : GasFees) (callData raw rc : string)
        (t t' : list RpcCall) :
  type dto = "token" ->
  getAddressByPrivateKey n (private_key dto) = inr address ->
  isAddress n (to_address dto) = true ->
  contract dto = Some c ->
  isAddress n c = true ->
  call_decimals n c = inr decimal ->
  calculateEstimateGasFees n (tokenAmount n (amount dto) decimal) address dto
                           (t ++ [CallDecimals c])%list
  = (inr fees, t') ->
  encodeABI_transfer n (to_address dto) (tokenAmount n (amount dto) decimal) = inr callData ->
  signTransaction n (Some (TokenTransfer address c (gasLimit fees) callData))
                  (private_key dto) = inr raw ->
  sendSignedTransaction n raw = inr rc ->
  send n chainId dto t
  = (inr (mkSendResult true rc),
     (t' ++ [SignTransaction (Some (TokenTransfer address c (gasLimit fees) callData));
             SendSignedTransaction raw])%list)
  /\ g_amount fees = tokenAmount n (amount dto) decimal.
Proof.
  intros Hty Ha Hv Hc Hvc Hd Hfees He Hs Hr. split.
  - unfold send, getContractDecimal.
    unfold tryCatch, rethrow, bind, ret, throw, lift, request.
    rewrite Ha, Hv, Hty, Hc. simpl. rewrite Hvc, Hd, Hfees, He. simpl.
    rewrite Hs, Hr. now rewrite <- app_assoc.
  - rewrite calculateEstimateGasFees_run in Hfees.
    destruct (eth_getGasPrice n); [discriminate | ].
    simpl in Hfees.
    destruct (positive_limit (gas_limit dto));
      [ | destruct (estimateGas_transfer n _ _ _ _); [discriminate | ]];
      destruct (utils_fromWei n _); inversion Hfees; reflexivity.
Qed.

Lemma send_token_witness :
  send (Sample.node 6 51234) "56" (Sample.transfer Sample.one_and_a_half (Some 0)) []
  = (inr (mkSendResult true "receipt"),
     [CallDecimals Sample.token; EthGetGasPrice;
      EstimateGasTransfer Sample.token Sample.holder "1500000"
                          "0x52908400098527886E0F7030069857D2E4169EE7";
      SignTransaction
        (Some (TokenTransfer "0x52908400098527886E0F7030069857D2E4169EE7" Sample.token
                             76851 (Sample.holder ++ ":1500000")));
      SendSignedTransaction "0xf86c"]).
Proof.
  apply (proj1 (send_token (Sample.node 6 51234) "56"
                  (Sample.transfer Sample.one_and_a_half (Some 0))
                  "0x52908400098527886E0F7030069857D2E4169EE7" Sample.token 6
                  (mkGasFees "1500000" "ok" 76851 5000000000 "0")
                  (Sample.holder ++ ":1500000") "0xf86c" "receipt" [] _
                  eq_refl eq_refl eq_refl eq_refl eq_refl eq_refl
                  eq_refl eq_refl eq_refl eq_refl)).
Defined.

End Web3More.
